(** * Concept suppression rules and Slack alerts of the curation pipeline

    A shallow embedding of
    - [data_steward/cdr_cleaner/cleaning_rules/deid/concept_suppression.py]
    - [data_steward/utils/slack_alerts.py]

    The SQL text produced by the Jinja templates is represented by its
    syntax tree ([Sql.select]); [Sql.eval_select] gives the rows such a
    statement returns on a warehouse state, with SQL's three-valued
    logic for NULL. Python exceptions, logging and the order of calls to
    outside services are threaded through a small state-and-error monad. *)

From Stdlib Require Import ZArith.
From stdpp Require Import base option list gmap strings fin_maps.

Local Open Scope string_scope.
Local Open Scope Z_scope.

(** ** Python: exceptions and effects *)

Module Py.

(** The exception classes that the two modules raise, catch or let
    through. *)
Inductive exn_class :=
| BaseException_
| GoogleCloudError
| TimeoutError
| RuntimeError
| NameError
| UnboundLocalError
| KeyError
| AttributeError
| SlackConfigurationError
| SlackApiError.

#[global] Instance exn_class_eq_dec : EqDecision exn_class.
Proof. solve_decision. Defined.

(** Direct base class, [None] at the root; only the part of the
    hierarchy between the classes above is kept
    ([class SlackConfigurationError(RuntimeError)]). *)
Definition base_of (c : exn_class) : option exn_class :=
  match c with
  | BaseException_ => None
  | UnboundLocalError => Some NameError
  | SlackConfigurationError => Some RuntimeError
  | _ => Some BaseException_
  end.

(** [issubclass c k]; the hierarchy above has depth at most two. *)
Definition issubclass (c k : exn_class) : bool :=
  bool_decide (c = k)
  || match base_of c with
     | Some b =>
         bool_decide (b = k)
         || match base_of b with
            | Some b' => bool_decide (b' = k)
            | None => false
            end
     | None => false
     end.

(** An exception object: its class and its arguments. *)
Inductive arg :=
| ArgStr (s : string)
| ArgList (l : list string).

#[global] Instance arg_eq_dec : EqDecision arg.
Proof. solve_decision. Defined.

Record exn := Exn { exn_cls : exn_class; exn_args : list arg }.

#[global] Instance exn_eq_dec : EqDecision exn.
Proof. solve_decision. Defined.

(** [except (k1, ..., kn)] catches [e]. *)
Definition caught_by (ks : list exn_class) (e : exn) : bool :=
  existsb (issubclass (exn_cls e)) ks.

Inductive outcome (A : Type) :=
| Return (a : A)
| Raise (e : exn).
Arguments Return {A} a.
Arguments Raise {A} e.

(** Computations over a state [S] that may raise. *)
Definition M (S A : Type) : Type := S → outcome A * S.

Definition ret {S A} (a : A) : M S A := λ s, (Return a, s).
Definition raise {S A} (e : exn) : M S A := λ s, (Raise e, s).
Definition bind {S A B} (m : M S A) (k : A → M S B) : M S B :=
  λ s, match m s with
       | (Return a, s') => k a s'
       | (Raise e, s') => (Raise e, s')
       end.
Definition get {S} : M S S := λ s, (Return s, s).
Definition modify {S} (f : S → S) : M S unit := λ s, (Return tt, f s).

(** [try: body except ks as e: handler e]. An exception the clause does
    not name, and one raised by the handler, propagates. *)
Definition try_except {S A}
    (body : M S A) (ks : list exn_class) (handler : exn → M S A) : M S A :=
  λ s, match body s with
       | (Return a, s') => (Return a, s')
       | (Raise e, s') =>
           if caught_by ks e then handler e s' else (Raise e, s')
       end.

Definition lift_outcome {S A} (o : outcome A) : M S A := λ s, (o, s).

#[global] Instance M_ret {S} : MRet (M S) := λ A, ret.
#[global] Instance M_bind {S} : MBind (M S) := λ A B k m, bind m k.

End Py.

(** ** The SQL fragment the templates produce *)

Module Sql.

Inductive value :=
| VNull
| VInt (z : Z)
| VStr (s : string).

#[global] Instance value_eq_dec : EqDecision value.
Proof. solve_decision. Defined.

(** A row maps column names to values ([dict(row.items())]); a column
    the row does not carry reads as NULL. *)
Abbreviation row := (gmap string value).

Definition col (r : row) (c : string) : value := default VNull (r !! c).

(** Table aliases of the templates: [d], [s], [s{{loop.index}}], and
    the unnamed range variable of a FROM clause without AS. *)
Inductive alias :=
| A_d
| A_s
| A_sn (index : nat)
| A_unqualified.

#[global] Instance alias_eq_dec : EqDecision alias.
Proof. solve_decision. Defined.

Definition alias_encode (a : alias) : nat + nat :=
  match a with
  | A_d => inl 0%nat
  | A_s => inl 1%nat
  | A_unqualified => inl 2%nat
  | A_sn i => inr i
  end.

Definition alias_decode (x : nat + nat) : alias :=
  match x with
  | inl 0%nat => A_d
  | inl 1%nat => A_s
  | inl _ => A_unqualified
  | inr i => A_sn i
  end.

#[global] Instance alias_countable : Countable alias.
Proof.
  apply (inj_countable' alias_encode alias_decode).
  by intros [].
Defined.

Abbreviation env := (gmap alias row).

#[warnings="-register-all"]
Inductive expr :=
| Col (a : alias) (c : string)          (* a.c *)
| Coalesce (xs : list expr).            (* COALESCE(x1, ..., xn) *)

Inductive cond :=
| Eq (x y : expr)                       (* x = y *)
| IsNull (x : expr)                     (* x IS NULL *)
| IsNotNull (x : expr)                  (* x IS NOT NULL *)
| InList (x : expr) (vs : list value).  (* x IN (v1, ..., vn) *)

Inductive source :=
| Table (project dataset table : string)  (* `project.dataset.table` *)
| Cte (name : string).                    (* a name bound by WITH *)

(** [SELECT c FROM UNNEST([v1, ..., vn]) AS c] *)
Record cte := Unnest { unnest_elems : list value; unnest_as : string }.

(** [LEFT JOIN src AS a ON c] *)
Record left_join := LeftJoin {
  lj_source : source;
  lj_as : alias;
  lj_on : cond
}.

Inductive projection :=
| Star (a : alias)                      (* a.* *)
| Column (a : alias) (c : string).      (* c *)

Record select := Select {
  sel_with : list (string * cte);
  sel_projection : projection;
  sel_from : source;
  sel_from_as : alias;
  sel_joins : list left_join;
  sel_where : cond
}.

(** A warehouse state: the rows of every table. *)
Definition database := string → string → string → list row.

Definition is_null (v : value) : bool :=
  match v with VNull => true | _ => false end.

Definition eval_col (e : env) (a : alias) (c : string) : value :=
  match e !! a with
  | Some r => col r c
  | None => VNull
  end.

Fixpoint eval_expr (e : env) (x : expr) : value :=
  match x with
  | Col a c => eval_col e a c
  | Coalesce xs =>
      (fix first_non_null (l : list expr) : value :=
         match l with
         | [] => VNull
         | y :: l' =>
             match eval_expr e y with
             | VNull => first_non_null l'
             | v => v
             end
         end) xs
  end.

(** [v = w] in three-valued logic: [None] is SQL's NULL truth value. *)
Definition sql_eq (v w : value) : option bool :=
  match v, w with
  | VNull, _ | _, VNull => None
  | VInt a, VInt b => Some (bool_decide (a = b))
  | VStr a, VStr b => Some (bool_decide (a = b))
  | _, _ => Some false
  end.

Definition sql_or (p q : option bool) : option bool :=
  match p, q with
  | Some true, _ | _, Some true => Some true
  | Some false, Some false => Some false
  | _, _ => None
  end.

Definition eval_cond (e : env) (c : cond) : option bool :=
  match c with
  | Eq x y => sql_eq (eval_expr e x) (eval_expr e y)
  | IsNull x => Some (is_null (eval_expr e x))
  | IsNotNull x => Some (negb (is_null (eval_expr e x)))
  | InList x vs =>
      foldr (λ v acc, sql_or (sql_eq (eval_expr e x) v) acc) (Some false) vs
  end.

(** ON and WHERE keep a row only when the condition is TRUE. *)
Definition holds (e : env) (c : cond) : bool :=
  match eval_cond e c with
  | Some true => true
  | _ => false
  end.

Definition cte_rows (c : cte) : list row :=
  map (λ v, {[ unnest_as c := v ]}) (unnest_elems c).

Fixpoint lookup_cte (ctes : list (string * cte)) (name : string)
    : option cte :=
  match ctes with
  | [] => None
  | (n, c) :: ctes' =>
      if bool_decide (n = name) then Some c else lookup_cte ctes' name
  end.

Definition source_rows (db : database) (ctes : list (string * cte))
    (src : source) : list row :=
  match src with
  | Table p d t => db p d t
  | Cte name =>
      match lookup_cte ctes name with
      | Some c => cte_rows c
      | None => []
      end
  end.

(** One LEFT JOIN applied to one row combination: every right row
    that satisfies ON, or the left side padded with NULLs when none
    does. *)
Definition left_join_step (db : database) (ctes : list (string * cte))
    (j : left_join) (e : env) : list env :=
  let matched :=
    List.filter (λ e', holds e' (lj_on j))
      (map (λ s, <[lj_as j := s]> e) (source_rows db ctes (lj_source j))) in
  match matched with
  | [] => [<[lj_as j := ∅]> e]
  | _ => matched
  end.

Fixpoint eval_joins (db : database) (ctes : list (string * cte))
    (js : list left_join) (e : env) : list env :=
  match js with
  | [] => [e]
  | j :: js' =>
      flat_map (eval_joins db ctes js') (left_join_step db ctes j e)
  end.

Definition project (e : env) (p : projection) : row :=
  match p with
  | Star a => default ∅ (e !! a)
  | Column a c => {[ c := eval_col e a c ]}
  end.

(** The rows a SELECT returns, as a list: a table is a bag of rows and
    no statement of the templates has ORDER BY, so only which rows the
    list holds and how often is meant, not their order. *)
Definition eval_select (db : database) (q : select) : list row :=
  flat_map
    (λ r,
       map (λ e, project e (sel_projection q))
         (List.filter (λ e, holds e (sel_where q))
            (eval_joins db (sel_with q) (sel_joins q)
               {[ sel_from_as q := r ]})))
    (source_rows db (sel_with q) (sel_from q)).

End Sql.

(** ** concept_suppression.py *)

Module ConceptSuppression.
Import Py Sql.

Definition TABLE_ID : string := "table_id".

(** [{% for x in l %} body {% endfor %}], the body reading
    [loop.index], which counts from 1. *)
Fixpoint jinja_for_from {A B : Type} (index : nat) (body : nat → A → B)
    (l : list A) : list B :=
  match l with
  | [] => []
  | x :: l' => body index x :: jinja_for_from (S index) body l'
  end.

Definition jinja_for {A B : Type} (body : nat → A → B) (l : list A)
    : list B :=
  jinja_for_from 1 body l.

Definition GET_ALL_TABLES_QUERY_TEMPLATE
    (project dataset : string) (table_names : list string) : select :=
  {| sel_with := [];
     sel_projection := Column A_unqualified "table_id";
     sel_from := Table project dataset "__TABLES__";
     sel_from_as := A_unqualified;
     sel_joins := [];
     sel_where :=
       InList (Col A_unqualified "table_id")
         (jinja_for (λ _ table_name, VStr table_name) table_names) |}.

(** *** The warehouse client, as far as [get_tables_in_dataset] uses it *)

(** What [query_job.result()] returns: the rows it iterates over,
    its [job_id], and what reading its attribute [errors] gives. The
    row iterator of the client library has no attribute of that name,
    which is [None]; an object standing in for it may have one. The
    list of errors of the job itself is [job_errors] below. *)
Record RowIterator := {
  rows : list row;
  job_id : string;
  errors : option (list string)
}.

Record QueryJob := {
  result : outcome RowIterator;        (* query_job.result() *)
  job_errors : option (list string)    (* query_job.errors *)
}.

(** [client.query(text)] *)
Definition Client := select → outcome QueryJob.

(** Truth value of [query_job.errors]: [None] and the empty list are
    false. *)
Definition truthy {A} (x : option (list A)) : bool :=
  match x with
  | Some (_ :: _) => true
  | _ => false
  end.

(** [LOGGER.error(f"Error running job {job}: {e}")] *)
Inductive log_record :=
| ERROR_running_job (job : string) (e : exn).

(** The frame of one call of [get_tables_in_dataset]: the local
    variable [result], unbound until the assignment in the try block
    has run, and the records sent to [LOGGER]. *)
Record frame := {
  var_result : option RowIterator;
  logged : list log_record
}.

Definition assign_result (r : RowIterator) : M frame unit :=
  modify (λ f, {| var_result := Some r; logged := logged f |}).

(** Reading a local variable that has no value yet raises
    [UnboundLocalError]. *)
Definition read_result : M frame RowIterator :=
  λ f, match var_result f with
       | Some r => (Return r, f)
       | None => (Raise (Exn UnboundLocalError [ArgStr "result"]), f)
       end.

Definition LOGGER_error (r : log_record) : M frame unit :=
  modify (λ f, {| var_result := var_result f; logged := logged f ++ [r] |}).

(** [result.errors]: an object without the attribute raises
    [AttributeError]. *)
Definition getattr_errors (res : RowIterator) : M frame (list string) :=
  match errors res with
  | Some detail => mret detail
  | None => raise (Exn AttributeError [ArgStr "errors"])
  end.

(** [dict(row.items())[key]] *)
Definition dict_getitem (r : row) (key : string) : M frame value :=
  match r !! key with
  | Some v => mret v
  | None => raise (Exn KeyError [ArgStr key])
  end.

Definition get_tables_in_dataset_frame (client : Client)
    (project_id dataset_id : string) (table_names : list string)
    : M frame (list value) :=
  query_job ← lift_outcome
    (client (GET_ALL_TABLES_QUERY_TEMPLATE project_id dataset_id table_names));
  try_except
    (r ← lift_outcome (result query_job);
     assign_result r;;
     if truthy (job_errors query_job) then
       res ← read_result;
       detail ← getattr_errors res;
       raise (Exn RuntimeError [ArgList detail])
     else
       res ← read_result;
       mapM (λ row, dict_getitem row TABLE_ID) (rows res))
    [GoogleCloudError; TimeoutError; RuntimeError]
    (λ e,
       res ← read_result;
       LOGGER_error (ERROR_running_job (job_id res) e);;
       raise e).

(** The call: a fresh frame, and what the caller sees of it
    afterwards. *)
Definition get_tables_in_dataset (client : Client)
    (project_id dataset_id : string) (table_names : list string)
    : outcome (list value) * list log_record :=
  let '(o, f) :=
    get_tables_in_dataset_frame client project_id dataset_id table_names
      {| var_result := None; logged := [] |} in
  (o, logged f).

(** A client that answers from the warehouse state [db] and never
    fails. *)
Definition warehouse_client (db : database) (job : string) : Client :=
  λ q, Return {| result := Return {| rows := eval_select db q;
                                     job_id := job;
                                     errors := None |};
                 job_errors := None |}.

(** *** Query specifications *)

(** [bq_consts.WRITE_TRUNCATE] and its siblings. *)
Inductive write_disposition :=
| WRITE_TRUNCATE
| WRITE_APPEND
| WRITE_EMPTY.

Inductive statement :=
| SelectStmt (q : select)
| DropIfEmpty (project dataset table : string).

(** The dictionaries built by the rules, keyed by [cdr_consts.QUERY],
    [DESTINATION_DATASET], [DESTINATION_TABLE] and [DISPOSITION]; a key
    a dictionary does not have is [None]. *)
Record QuerySpec := {
  QUERY : statement;
  DESTINATION_DATASET : option string;
  DESTINATION_TABLE : option string;
  DISPOSITION : option write_disposition
}.

(** The rows a statement returns to its destination. *)
Definition selected (db : database) (st : statement) : list row :=
  match st with
  | SelectStmt q => eval_select db q
  | DropIfEmpty _ _ _ => []
  end.

(** *** BaseCleaningRule *)

(** Modelled from the spec: the fields of [BaseCleaningRule] (section 3,
    RuleConfiguration); the class is declared in
    [cdr_cleaner.cleaning_rules.base_cleaning_rule].
    [sandbox_table_for] is its abstract method, implemented by every
    concrete rule; the implementation is carried with the instance. *)
Record BaseCleaningRule := {
  project_id : string;
  dataset_id : string;
  sandbox_dataset_id : string;
  issue_numbers : list string;
  description : string;
  affected_datasets : list string;
  affected_tables : list string;
  sandbox_table_for : string → string
}.

(** Modelled from the spec: [BaseCleaningRule.__init__] stores its
    arguments. *)
Definition BaseCleaningRule__init__
    (sandbox_table_for : string → string)
    (issue_numbers : list string) (description : string)
    (affected_datasets : list string)
    (project_id dataset_id sandbox_dataset_id : string)
    (affected_tables : list string) : BaseCleaningRule :=
  {| project_id := project_id;
     dataset_id := dataset_id;
     sandbox_dataset_id := sandbox_dataset_id;
     issue_numbers := issue_numbers;
     description := description;
     affected_datasets := affected_datasets;
     affected_tables := affected_tables;
     sandbox_table_for := sandbox_table_for |}.

(** Modelled from the spec: [get_delete_empty_sandbox_tables_queries],
    declared in [cdr_cleaner.cleaning_rules.base_cleaning_rule]. Section
    4.2 and section 8 have it give one cleanup candidate per sandbox
    table, dropping the table when it ended up empty. *)
Definition spec_get_delete_empty_sandbox_tables_queries
    (project_id sandbox_dataset_id : string)
    (sandbox_tablenames : list string) : list QuerySpec :=
  map (λ t, {| QUERY := DropIfEmpty project_id sandbox_dataset_id t;
               DESTINATION_DATASET := None;
               DESTINATION_TABLE := None;
               DISPOSITION := None |})
    sandbox_tablenames.

(** *** AbstractConceptSuppression and its two variants *)

Definition SUPPRESSION_RECORD_QUERY_TEMPLATE
    (project dataset sandbox_dataset domain_table sandbox_table : string)
    : select :=
  {| sel_with := [];
     sel_projection := Star A_d;
     sel_from := Table project dataset domain_table;
     sel_from_as := A_d;
     sel_joins :=
       [LeftJoin (Table project sandbox_dataset sandbox_table) A_s
          (Eq (Col A_d (domain_table ++ "_id"))
              (Col A_s (domain_table ++ "_id")))];
     sel_where := IsNull (Col A_s (domain_table ++ "_id")) |}.

Definition BQ_LOOKUP_TABLE_SANDBOX_QUERY_TEMPLATE
    (project dataset sandbox_dataset domain_table : string)
    (concept_fields : list string) (suppression_concept : string)
    : select :=
  {| sel_with := [];
     sel_projection := Star A_d;
     sel_from := Table project dataset domain_table;
     sel_from_as := A_d;
     sel_joins :=
       jinja_for
         (λ index concept_field,
            LeftJoin (Table project sandbox_dataset suppression_concept)
              (A_sn index)
              (Eq (Col A_d concept_field) (Col (A_sn index) "concept_id")))
         concept_fields;
     sel_where :=
       IsNotNull
         (Coalesce
            (jinja_for (λ index _, Col (A_sn index) "concept_id")
               concept_fields)) |}.

Definition IN_MEMORY_SANDBOX_QUERY_TEMPLATE
    (project dataset sandbox_dataset domain_table : string)
    (concept_fields : list string) (suppressed_concept_ids : list Z)
    : select :=
  {| sel_with :=
       [("suppressed_concepts",
         Unnest (jinja_for (λ _ concept_id, VInt concept_id)
                   suppressed_concept_ids)
           "concept_id")];
     sel_projection := Star A_d;
     sel_from := Table project dataset domain_table;
     sel_from_as := A_d;
     sel_joins :=
       jinja_for
         (λ index concept_field,
            LeftJoin (Cte "suppressed_concepts") (A_sn index)
              (Eq (Col A_d concept_field) (Col (A_sn index) "concept_id")))
         concept_fields;
     sel_where :=
       IsNotNull
         (Coalesce
            (jinja_for (λ index _, Col (A_sn index) "concept_id")
               concept_fields)) |}.

Section Rules.

(** [resources.get_concept_id_fields] and
    [resources.has_domain_table_id] read the table schemas; the rules
    are stated for any schema. *)
Variable get_concept_id_fields : string → list string.
Variable has_domain_table_id : string → bool.

(** [base_cleaning_rule.get_delete_empty_sandbox_tables_queries] *)
Variable get_delete_empty_sandbox_tables_queries :
  string → string → list string → list QuerySpec.

(** Truth value of [get_concept_id_fields(t) and
    has_domain_table_id(t)]: an empty list is false. *)
Definition suppressible (table_name : string) : bool :=
  match get_concept_id_fields table_name with
  | [] => false
  | _ :: _ => has_domain_table_id table_name
  end.

Definition AbstractConceptSuppression__init__
    (sandbox_table_for : string → string)
    (project_id dataset_id sandbox_dataset_id : string)
    (issue_numbers : list string) (description : string)
    (affected_datasets affected_tables : list string)
    : BaseCleaningRule :=
  let affected_tables := List.filter suppressible affected_tables in
  BaseCleaningRule__init__ sandbox_table_for issue_numbers description
    affected_datasets project_id dataset_id sandbox_dataset_id
    affected_tables.

(** A concept suppression rule is a rule object with the abstract
    method [get_sandbox_query] implemented. *)
Class ConceptSuppressionRule (R : Type) := {
  base : R → BaseCleaningRule;
  get_sandbox_query : R → string → QuerySpec
}.

Section Abstract.
Context {R : Type} `{ConceptSuppressionRule R}.

Definition get_sandbox_tablenames (self : R) : list string :=
  map (λ affected_table, sandbox_table_for (base self) affected_table)
    (affected_tables (base self)).

Definition get_suppression_query (self : R) (table_name : string)
    : QuerySpec :=
  let suppression_record_query :=
    SUPPRESSION_RECORD_QUERY_TEMPLATE
      (project_id (base self))
      (dataset_id (base self))
      (sandbox_dataset_id (base self))
      table_name
      (sandbox_table_for (base self) table_name) in
  {| QUERY := SelectStmt suppression_record_query;
     DESTINATION_DATASET := Some (dataset_id (base self));
     DISPOSITION := Some WRITE_TRUNCATE;
     DESTINATION_TABLE := Some table_name |}.

Definition get_query_specs (self : R) : list QuerySpec :=
  let sandbox_queries :=
    map (λ table_name, get_sandbox_query self table_name)
      (affected_tables (base self)) in
  let queries :=
    map (λ table_name, get_suppression_query self table_name)
      (affected_tables (base self)) in
  let delete_empty_sandbox_queries :=
    get_delete_empty_sandbox_tables_queries
      (project_id (base self)) (sandbox_dataset_id (base self))
      (get_sandbox_tablenames self) in
  sandbox_queries ++ queries ++ delete_empty_sandbox_queries.

End Abstract.

(** [AbstractBqLookupTableConceptSuppression]: the rule and the name
    of its lookup table. *)
Record BqLookupTableRule := {
  bq_base : BaseCleaningRule;
  concept_suppression_lookup_table : string
}.

Definition AbstractBqLookupTableConceptSuppression__init__
    (sandbox_table_for : string → string)
    (project_id dataset_id sandbox_dataset_id : string)
    (issue_numbers : list string) (description : string)
    (affected_datasets affected_tables : list string)
    (concept_suppression_lookup_table : string) : BqLookupTableRule :=
  {| bq_base :=
       AbstractConceptSuppression__init__ sandbox_table_for
         project_id dataset_id sandbox_dataset_id issue_numbers
         description affected_datasets affected_tables;
     concept_suppression_lookup_table :=
       concept_suppression_lookup_table |}.

Definition bq_get_sandbox_query (self : BqLookupTableRule)
    (table_name : string) : QuerySpec :=
  let suppression_record_sandbox_query :=
    BQ_LOOKUP_TABLE_SANDBOX_QUERY_TEMPLATE
      (project_id (bq_base self))
      (dataset_id (bq_base self))
      (sandbox_dataset_id (bq_base self))
      table_name
      (get_concept_id_fields table_name)
      (concept_suppression_lookup_table self) in
  {| QUERY := SelectStmt suppression_record_sandbox_query;
     DESTINATION_TABLE :=
       Some (sandbox_table_for (bq_base self) table_name);
     DISPOSITION := Some WRITE_TRUNCATE;
     DESTINATION_DATASET := Some (sandbox_dataset_id (bq_base self)) |}.

#[export] Instance BqLookupTable_rule
    : ConceptSuppressionRule BqLookupTableRule :=
  {| base := bq_base; get_sandbox_query := bq_get_sandbox_query |}.

(** [AbstractInMemoryLookupTableConceptSuppression]: the rule and
    what its [get_suppressed_concept_ids] returns. *)
Record InMemoryRule := {
  im_base : BaseCleaningRule;
  get_suppressed_concept_ids : list Z
}.

Definition im_get_sandbox_query (self : InMemoryRule)
    (table_name : string) : QuerySpec :=
  let suppression_record_sandbox_query :=
    IN_MEMORY_SANDBOX_QUERY_TEMPLATE
      (project_id (im_base self))
      (dataset_id (im_base self))
      (sandbox_dataset_id (im_base self))
      table_name
      (get_concept_id_fields table_name)
      (get_suppressed_concept_ids self) in
  {| QUERY := SelectStmt suppression_record_sandbox_query;
     DESTINATION_TABLE :=
       Some (sandbox_table_for (im_base self) table_name);
     DISPOSITION := Some WRITE_TRUNCATE;
     DESTINATION_DATASET := Some (sandbox_dataset_id (im_base self)) |}.

#[export] Instance InMemory_rule : ConceptSuppressionRule InMemoryRule :=
  {| base := im_base; get_sandbox_query := im_get_sandbox_query |}.

End Rules.

End ConceptSuppression.

(** ** slack_alerts.py *)

Module SlackAlerts.
Import Py.

(** environment variable names *)
Definition SLACK_TOKEN : string := "SLACK_TOKEN".
Definition SLACK_CHANNEL : string := "SLACK_CHANNEL".

Definition UNSET_SLACK_TOKEN_MSG : string :=
  "Slack token not set in environment variable " ++ SLACK_TOKEN.
Definition UNSET_SLACK_CHANNEL_MSG : string :=
  "Slack channel not set in environment variable " ++ SLACK_CHANNEL.

(** [sys.maxsize] of a 64-bit interpreter. *)
Definition sys_maxsize : Z := 2 ^ 63 - 1.

(** A channel of the listing is a JSON object; its string fields. *)
Abbreviation channel := (gmap string string).

(** A Slack response: [status_code], and the lists of objects found
    under the keys of [data]. *)
Record SlackResponse := {
  status_code : Z;
  data : gmap string (list channel)
}.

(** A request sent to the Slack web API. *)
Inductive request :=
| conversations_list_request (token : string) (limit : Z)
| chat_postMessage_request (token channel text : string) (verify : bool).

(** What the process can observe and change: [os.environ], the records
    passed to [logging.error], and the requests sent so far. *)
Record world := {
  environ : gmap string string;
  logged : list exn;
  sent : list request
}.

(** [slack.WebClient(token)] *)
Record WebClient := { token : string }.

Definition logging_error (e : exn) : M world unit :=
  modify (λ w, {| environ := environ w;
                  logged := logged w ++ [e];
                  sent := sent w |}).

Definition send (r : request) : M world unit :=
  modify (λ w, {| environ := environ w;
                  logged := logged w;
                  sent := sent w ++ [r] |}).

Definition SlackConfigurationError_ (msg : string) : exn :=
  Exn SlackConfigurationError [ArgStr msg].

Definition _get_slack_token : M world string :=
  w ← get;
  match environ w !! SLACK_TOKEN with
  | None => raise (SlackConfigurationError_ UNSET_SLACK_TOKEN_MSG)
  | Some v => mret v
  end.

Definition _get_slack_channel_name : M world string :=
  w ← get;
  match environ w !! SLACK_CHANNEL with
  | None => raise (SlackConfigurationError_ UNSET_SLACK_CHANNEL_MSG)
  | Some v => mret v
  end.

Definition _get_slack_client : M world WebClient :=
  slack_token ← _get_slack_token;
  mret {| token := slack_token |}.

(** [d[key]] on a dictionary. *)
Definition getitem {V} (d : gmap string V) (key : string) : M world V :=
  match d !! key with
  | Some v => mret v
  | None => raise (Exn KeyError [ArgStr key])
  end.

Section Service.

(** The Slack service: what it answers to a channel listing and to
    a message, a response or an exception of the client library. *)
Variable conversations_list_answer : string → Z → outcome SlackResponse.
Variable chat_postMessage_answer :
  string → string → string → outcome SlackResponse.

Definition conversations_list (client : WebClient) (limit : Z)
    : M world SlackResponse :=
  send (conversations_list_request (token client) limit);;
  lift_outcome (conversations_list_answer (token client) limit).

Definition chat_postMessage (client : WebClient)
    (channel text : string) (verify : bool) : M world SlackResponse :=
  send (chat_postMessage_request (token client) channel text verify);;
  lift_outcome (chat_postMessage_answer (token client) channel text).

(** The loop [for channel in ...: if channel['name'] == channel_name:
    return True]; [Some true] when the function has returned, [None]
    when the loop ran to its end. *)
Fixpoint for_channel (channel_name : string) (channels : list channel)
    : M world (option bool) :=
  match channels with
  | [] => mret None
  | channel :: channels' =>
      name ← getitem channel "name";
      if bool_decide (name = channel_name) then mret (Some true)
      else for_channel channel_name channels'
  end.

Definition is_channel_available : M world bool :=
  returned ← try_except
    (client ← _get_slack_client;
     channel_name ← _get_slack_channel_name;
     response ← conversations_list client sys_maxsize;
     if bool_decide (status_code response = 200) then
       channels ← getitem (data response) "channels";
       for_channel channel_name channels
     else mret None)
    [SlackConfigurationError; SlackApiError]
    (λ e, logging_error e;; mret None);
  match returned with
  | Some b => mret b
  | None => mret false
  end.

Definition post_message (text : string) : M world SlackResponse :=
  slack_client ← _get_slack_client;
  slack_channel_name ← _get_slack_channel_name;
  chat_postMessage slack_client slack_channel_name text false.

End Service.

End SlackAlerts.

(** ** Sample data *)

Module Examples.
Import Py Sql ConceptSuppression SlackAlerts.

(** Two tables of a schema: only [condition_occurrence] declares
    concept-id columns. *)
Definition concept_id_fields (table_name : string) : list string :=
  if bool_decide (table_name = "condition_occurrence")
  then ["condition_concept_id"; "condition_source_concept_id"]
  else [].

Definition domain_table_id (table_name : string) : bool :=
  bool_decide (table_name = "condition_occurrence")
  || bool_decide (table_name = "person").

Definition naming (table_name : string) : string :=
  "dc1_" ++ table_name.

Definition condition (id concept source_concept : value) : row :=
  {[ "condition_occurrence_id" := id;
     "condition_concept_id" := concept;
     "condition_source_concept_id" := source_concept ]}.

Definition row_a : row := condition (VInt 1) (VInt 10) (VInt 99).
Definition row_b : row := condition (VInt 2) (VInt 11) VNull.
Definition row_c : row := condition (VInt 3) (VInt 99) (VInt 99).

(** A warehouse with three conditions, a lookup table holding concept
    99, the sandbox table of the conditions holding [row_a], and a
    listing of tables that names one table twice. *)
Definition warehouse : database :=
  λ _ dataset table,
    if bool_decide (table = "condition_occurrence") then
      [row_a; row_b; row_c]
    else if bool_decide (table = "suppressed") then
      [{[ "concept_id" := VInt 99 ]}]
    else if bool_decide (table = "dc1_condition_occurrence") then
      [row_a]
    else if bool_decide (table = "__TABLES__") then
      [{[ "table_id" := VStr "person" ]};
       {[ "table_id" := VStr "condition_occurrence" ]};
       {[ "table_id" := VStr "person" ]};
       {[ "table_id" := VStr "measurement" ]}]
    else [].

Definition rule : BaseCleaningRule :=
  AbstractConceptSuppression__init__ concept_id_fields domain_table_id
    naming "project" "dataset" "sandbox" ["DC-1"] "suppress concepts"
    ["dataset"] ["condition_occurrence"; "person"].

Definition lookup_rule : BqLookupTableRule :=
  {| bq_base := rule; concept_suppression_lookup_table := "suppressed" |}.

Definition in_memory_rule : InMemoryRule :=
  {| im_base := rule; get_suppressed_concept_ids := [99] |}.

#[global] Instance lookup_rule_class
    : ConceptSuppressionRule BqLookupTableRule :=
  BqLookupTable_rule concept_id_fields.

#[global] Instance in_memory_rule_class
    : ConceptSuppressionRule InMemoryRule :=
  InMemory_rule concept_id_fields.

(** A job whose [result()] times out. *)
Definition timeout_client : Client :=
  λ _, Return {| result := Raise (Exn TimeoutError [ArgStr "timed out"]);
                 job_errors := None |}.

(** A job whose [result()] is refused by the warehouse. *)
Definition bad_request_client : Client :=
  λ _, Return {| result := Raise (Exn GoogleCloudError [ArgStr "400 Bad Request"]);
                 job_errors := None |}.

(** A job that completes and reports errors; [result()] returns a row
    iterator of the client library. *)
Definition failed_job_client : Client :=
  λ _, Return {| result := Return {| rows := [];
                                     job_id := "job_1";
                                     errors := None |};
                 job_errors := Some ["invalidQuery"] |}.

(** The same job, with a stand-in for the row iterator that has an
    attribute [errors], holding no error. *)
Definition stand_in_job_client : Client :=
  λ _, Return {| result := Return {| rows := [];
                                     job_id := "job_1";
                                     errors := Some [] |};
                 job_errors := Some ["invalidQuery"] |}.

Definition no_environment : world :=
  {| environ := ∅; logged := []; sent := [] |}.

Definition token_only : world :=
  {| environ := {[ "SLACK_TOKEN" := "xoxb" ]}; logged := []; sent := [] |}.

Definition configured : world :=
  {| environ := {[ "SLACK_TOKEN" := "xoxb"; "SLACK_CHANNEL" := "alerts" ]};
     logged := [];
     sent := [] |}.

Definition listing : SlackResponse :=
  {| status_code := 200;
     data := {[ "channels" := [ {[ "name" := "general" ]};
                                {[ "name" := "alerts" ]} ] ]} |}.

Definition slack_up (token : string) (limit : Z) : outcome SlackResponse :=
  Return listing.

Definition slack_down (token : string) (limit : Z)
    : outcome SlackResponse :=
  Raise (Exn SlackApiError [ArgStr "invalid_auth"]).

Definition delivered (token channel text : string)
    : outcome SlackResponse :=
  Return {| status_code := 200; data := ∅ |}.

End Examples.

(** ** concept_suppression.py: the setup phase *)

Module RuleSetup.
Import Py Sql ConceptSuppression.

(** A record sent to the module's [LOGGER] during setup: by
    [get_tables_in_dataset], or by [setup_rule] itself. *)
Inductive setup_log_record :=
| from_get_tables_in_dataset (r : log_record)
| ERROR (error : exn).                  (* LOGGER.error(error) *)

(** What a setup leaves behind: the log, and the calls of
    [create_suppression_lookup_table] made so far. *)
Record setup_state := {
  setup_logged : list setup_log_record;
  lookup_tables_created : nat
}.

Definition LOGGER_error_exn (error : exn) : M setup_state unit :=
  modify (λ s, {| setup_logged := setup_logged s ++ [ERROR error];
                  lookup_tables_created := lookup_tables_created s |}).

(** The call of [get_tables_in_dataset] from a method: its records
    join the log. *)
Definition call_get_tables_in_dataset (client : Client)
    (project_id dataset_id : string) (table_names : list string)
    : M setup_state (list value) :=
  λ s,
    let '(o, records) :=
      get_tables_in_dataset client project_id dataset_id table_names in
    (o, {| setup_logged :=
             setup_logged s ++ map from_get_tables_in_dataset records;
           lookup_tables_created := lookup_tables_created s |}).

(** [AbstractConceptSuppression.setup_rule]. [Return tables]: the list
    [tables] has been assigned to [self.affected_tables]; when the
    method raises, the attribute is as it was. *)
Definition setup_rule (client : Client) (self : BaseCleaningRule)
    : M setup_state (list value) :=
  try_except
    (call_get_tables_in_dataset client (project_id self) (dataset_id self)
       (affected_tables self))
    [GoogleCloudError]
    (λ error, LOGGER_error_exn error;; raise error).

Section Lookup.

(** The abstract method [create_suppression_lookup_table], as the
    concrete rule implements it: given the rule, the tables just
    resolved and the client, it returns or raises. *)
Variable create_suppression_lookup_table :
  BqLookupTableRule → list value → Client → outcome unit.

Definition call_create_suppression_lookup_table (self : BqLookupTableRule)
    (tables : list value) (client : Client) : M setup_state unit :=
  modify (λ s, {| setup_logged := setup_logged s;
                  lookup_tables_created := S (lookup_tables_created s) |});;
  lift_outcome (create_suppression_lookup_table self tables client).

(** [AbstractBqLookupTableConceptSuppression.setup_rule] *)
Definition bq_setup_rule (client : Client) (self : BqLookupTableRule)
    : M setup_state (list value) :=
  tables ← setup_rule client (bq_base self);
  call_create_suppression_lookup_table self tables client;;
  mret tables.

End Lookup.

End RuleSetup.

(** ** More sample data *)

Module SetupExamples.
Import Py Sql ConceptSuppression RuleSetup SlackAlerts.

(** The warehouse refuses the query when it is submitted. *)
Definition refusing_client : Client :=
  λ _, Raise (Exn GoogleCloudError [ArgStr "403 Forbidden"]).

(** A job whose [result()] fails with an error that the except clause
    of [get_tables_in_dataset] does not name. *)
Definition interrupted_client : Client :=
  λ _, Return {| result := Raise (Exn KeyError [ArgStr "interrupted"]);
                 job_errors := None |}.

(** A job whose second row has no [table_id]. *)
Definition ragged_client : Client :=
  λ _, Return {| result :=
                   Return {| rows := [ {[ "table_id" := VStr "person" ]};
                                       {[ "dataset_id" := VStr "dataset" ]} ];
                             job_id := "job_3";
                             errors := None |};
                 job_errors := None |}.

(** A job that completes with two rows. *)
Definition two_rows : RowIterator :=
  {| rows := [ {[ "table_id" := VStr "person" ]};
               {[ "table_id" := VStr "visit_occurrence" ]} ];
     job_id := "job_4";
     errors := None |}.

Definition plain_client : Client :=
  λ _, Return {| result := Return two_rows; job_errors := None |}.

Definition fresh : setup_state :=
  {| setup_logged := []; lookup_tables_created := 0 |}.

Definition creates (self : BqLookupTableRule) (tables : list value)
    (client : Client) : outcome unit :=
  Return tt.

(** [Examples.warehouse] once the sandbox query of
    [Examples.in_memory_rule] on [condition_occurrence] has been written
    to its destination. *)
Definition sandboxed_warehouse : database :=
  λ project dataset table,
    if bool_decide (table = "dc1_condition_occurrence") then
      [Examples.row_a; Examples.row_c]
    else Examples.warehouse project dataset table.

(** A table in which no condition refers to concept 99, and its
    warehouse with an empty sandbox table. *)
Definition clean_warehouse : database :=
  λ project dataset table,
    if bool_decide (table = "condition_occurrence") then [Examples.row_b]
    else if bool_decide (table = "suppressed") then
      [{[ "concept_id" := VInt 99 ]}]
    else [].

(** A condition without identifier that refers to concept 99. *)
Definition row_without_id : row :=
  Examples.condition VNull (VInt 99) (VInt 12).

Definition warehouse_with_null_id : database :=
  λ project dataset table,
    if bool_decide (table = "condition_occurrence") then
      [Examples.row_b; row_without_id]
    else if bool_decide (table = "dc1_condition_occurrence") then
      [row_without_id]
    else [].

Definition listing_without_channels : SlackResponse :=
  {| status_code := 200; data := ∅ |}.

Definition slack_malformed (token : string) (limit : Z)
    : outcome SlackResponse :=
  Return listing_without_channels.

Definition slack_unavailable (token : string) (limit : Z)
    : outcome SlackResponse :=
  Return {| status_code := 503; data := ∅ |}.

Definition slack_broken (token : string) (limit : Z)
    : outcome SlackResponse :=
  Raise (Exn TimeoutError [ArgStr "connection timed out"]).

End SetupExamples.

(** * Properties *)

(** ** Evaluation of the SQL fragment *)

Module SqlFacts.
Import Sql ConceptSuppression.

Lemma sql_eq_true (v w : value) :
  sql_eq v w = Some true ↔ v = w ∧ v ≠ VNull.
Proof.
  destruct v, w; simpl; try (split; [discriminate | intros [? ?]; congruence]).
  - case_bool_decide; split; try discriminate; intros; subst; try done.
    destruct H0; congruence.
  - case_bool_decide; split; try discriminate; intros; subst; try done.
    destruct H0; congruence.
Qed.

Lemma sql_eq_not_null_r (v w : value) :
  sql_eq v w = Some true → is_null w = false.
Proof. intros [-> Hn]%sql_eq_true. by destruct w. Qed.

Lemma eval_col_insert_eq (e : env) (a : alias) (s : row) (c : string) :
  eval_col (<[a := s]> e) a c = col s c.
Proof. unfold eval_col. by rewrite lookup_insert_eq. Qed.

Lemma eval_col_insert_ne (e : env) (a b : alias) (s : row) (c : string) :
  a ≠ b → eval_col (<[a := s]> e) b c = eval_col e b c.
Proof. intros. unfold eval_col. by rewrite lookup_insert_ne. Qed.

Lemma col_empty (c : string) : col ∅ c = VNull.
Proof. unfold col. by rewrite lookup_empty. Qed.

Lemma left_join_step_nonempty db ctes j (e : env) :
  left_join_step db ctes j e ≠ [].
Proof. unfold left_join_step. by destruct (List.filter _ _). Qed.

(** The two ways a row combination leaves a LEFT JOIN. *)
Lemma left_join_step_In db ctes j (e e' : env) :
  In e' (left_join_step db ctes j e) →
  (∃ s, In s (source_rows db ctes (lj_source j))
        ∧ e' = <[lj_as j := s]> e ∧ holds e' (lj_on j) = true)
  ∨ (e' = <[lj_as j := ∅]> e
     ∧ ∀ s, In s (source_rows db ctes (lj_source j)) →
            holds (<[lj_as j := s]> e) (lj_on j) = false).
Proof.
  unfold left_join_step.
  destruct (List.filter _ _) as [|e1 l] eqn:Hf.
  - intros [<-|[]]. right. split; [done|]. intros s Hs.
    destruct (holds (<[lj_as j:=s]> e) (lj_on j)) eqn:Hh; [|done].
    assert (In (<[lj_as j:=s]> e) []) as [].
    rewrite <- Hf. apply filter_In. split; [|done].
    apply in_map_iff. eauto.
  - rewrite <- Hf. intros [Hm Hh]%filter_In.
    apply in_map_iff in Hm as (s & <- & Hs). left. eauto.
Qed.

Lemma eval_joins_nonempty db ctes js (e : env) :
  eval_joins db ctes js e ≠ [].
Proof.
  revert e. induction js as [|j js IH]; intros e; simpl; [done|].
  pose proof (left_join_step_nonempty db ctes j e) as Hne.
  destruct (left_join_step db ctes j e) as [|e1 l]; [done|]. simpl.
  specialize (IH e1). destruct (eval_joins db ctes js e1); [done|]. done.
Qed.

Lemma flat_map_singleton {A} (l : list A) : flat_map (λ x, [x]) l = l.
Proof. induction l as [|x l IH]; simpl; [done|]. by rewrite IH. Qed.

Lemma filter_none {A} (f : A → bool) (l : list A) :
  (∀ x, In x l → f x = false) → List.filter f l = [].
Proof.
  induction l as [|x l IH]; intros Hall; simpl; [done|].
  rewrite (Hall x) by by left. apply IH. intros y Hy. apply Hall. by right.
Qed.

Lemma existsb_pointwise {A} (f g : A → bool) (l : list A) :
  (∀ x, f x = g x) → existsb f l = existsb g l.
Proof.
  intros Hfg. induction l as [|x l IH]; simpl; [done|].
  by rewrite Hfg, IH.
Qed.

Lemma flat_map_filter_singleton {A B C} (E : A → B) (keep : B → bool)
    (P : B → C) (l : list A) :
  flat_map (λ r, map P (List.filter keep [E r])) l
  = map (λ r, P (E r)) (List.filter (λ r, keep (E r)) l).
Proof.
  induction l as [|r l IH]; [done|]. cbn [flat_map]. rewrite IH.
  cbn [List.filter]. by destruct (keep (E r)).
Qed.

Lemma filter_map_commute {A B} (keep : B → bool) (g : A → B) (l : list A) :
  List.filter keep (map g l) = map g (List.filter (λ x, keep (g x)) l).
Proof.
  induction l as [|x l IH]; [done|]. cbn [map List.filter].
  rewrite IH. by destruct (keep (g x)).
Qed.

Lemma NoDup_map_injective {A B} (g : A → B) (l : list A) :
  (∀ x y, g x = g y → x = y) → List.NoDup l → List.NoDup (map g l).
Proof.
  intros Hinj. induction 1 as [|x l Hx Hl IH]; cbn [map]; constructor.
  - intros (y & Heq & Hy)%in_map_iff. apply Hinj in Heq. by subst.
  - done.
Qed.

Lemma is_null_coalesce_cons (e : env) x xs :
  is_null (eval_expr e (Coalesce (x :: xs)))
  = is_null (eval_expr e x) && is_null (eval_expr e (Coalesce xs)).
Proof. simpl. by destruct (eval_expr e x). Qed.

Section SandboxJoins.

Variable db : database.
Variable ctes : list (string * cte).
Variable src : source.
Variable r : row.

(** One join of the sandbox templates, and its entry in COALESCE. *)
Local Abbreviation J := (λ (index : nat) (concept_field : string),
  LeftJoin src (A_sn index)
    (Eq (Col A_d concept_field) (Col (A_sn index) "concept_id"))).
Local Abbreviation C := (λ (index : nat) (_ : string),
  Col (A_sn index) "concept_id").

(** Some row of the joined source carries the value of column [f]. *)
Local Abbreviation hit := (λ f : string,
  existsb (λ s, bool_decide
                  (sql_eq (col r f) (col s "concept_id") = Some true))
    (source_rows db ctes src)).

Lemma sandbox_on_holds (k : nat) (f : string) (e : env) (s : row) :
  e !! A_d = Some r →
  holds (<[A_sn k := s]> e)
    (Eq (Col A_d f) (Col (A_sn k) "concept_id"))
  = bool_decide (sql_eq (col r f) (col s "concept_id") = Some true).
Proof.
  intros Hd. unfold holds. simpl.
  rewrite eval_col_insert_eq, eval_col_insert_ne by done.
  unfold eval_col at 1. rewrite Hd.
  destruct (sql_eq _ _) as [[]|]; by case_bool_decide.
Qed.

Lemma sandbox_join_step (k : nat) (f : string) (e e' : env) :
  e !! A_d = Some r →
  In e' (left_join_step db ctes (J k f) e) →
  ∃ s, e' = <[A_sn k := s]> e
       ∧ is_null (col s "concept_id") = negb (hit f).
Proof.
  intros Hd He'.
  apply left_join_step_In in He' as [(s & Hs & -> & Hh)|[-> Hnone]];
    simpl in *.
  - exists s. split; [done|].
    rewrite (sandbox_on_holds k f e s Hd) in Hh.
    apply bool_decide_eq_true in Hh.
    rewrite (sql_eq_not_null_r _ _ Hh). symmetry.
    apply negb_false_iff, existsb_exists. exists s.
    split; [done|]. by apply bool_decide_eq_true.
  - exists ∅. split; [done|]. rewrite col_empty. simpl. symmetry.
    apply negb_true_iff. apply not_true_iff_false.
    intros (s & Hs & Hh)%existsb_exists.
    specialize (Hnone s Hs).
    rewrite (sandbox_on_holds k f e s Hd) in Hnone. congruence.
Qed.

(** A join that finds at most one partner yields one row combination. *)
Lemma sandbox_join_step_once (k : nat) (f : string) (e : env) :
  e !! A_d = Some r →
  (length (List.filter
             (λ s, bool_decide
                     (sql_eq (col r f) (col s "concept_id") = Some true))
             (source_rows db ctes src)) ≤ 1)%nat →
  ∃ e', left_join_step db ctes (J k f) e = [e'].
Proof.
  intros Hd Hone. unfold left_join_step. cbn [lj_source lj_as lj_on].
  rewrite filter_map_commute.
  rewrite (filter_ext _
    (λ s, bool_decide (sql_eq (col r f) (col s "concept_id") = Some true)))
    by (intros s; by apply sandbox_on_holds).
  destruct (List.filter _ (source_rows db ctes src)) as [|s [|s' l]].
  - by eexists.
  - by eexists.
  - simpl in Hone. lia.
Qed.

Lemma sandbox_joins (fields : list string) :
  ∀ (k : nat) (e e' : env),
    e !! A_d = Some r →
    In e' (eval_joins db ctes (jinja_for_from k J fields) e) →
    e' !! A_d = Some r
    ∧ (∀ i, (i < k)%nat → e' !! A_sn i = e !! A_sn i)
    ∧ is_null (eval_expr e' (Coalesce (jinja_for_from k C fields)))
      = negb (existsb hit fields).
Proof.
  induction fields as [|f fields IH]; intros k e e' Hd He'.
  - simpl in He'. destruct He' as [<-|[]]. done.
  - simpl in He'. apply in_flat_map in He' as (e1 & He1 & He').
    apply sandbox_join_step in He1 as (s & -> & Hs); [|done].
    apply IH in He' as (Hd' & Hkeep & Hrest);
      [|by rewrite lookup_insert_ne].
    split; [done|]. split.
    + intros i Hi. rewrite Hkeep by lia.
      apply lookup_insert_ne. intros [=]. lia.
    + cbn [jinja_for_from existsb]. rewrite is_null_coalesce_cons.
      rewrite Hrest, negb_orb. f_equal.
      cbn [eval_expr]. unfold eval_col.
      rewrite Hkeep by lia. by rewrite lookup_insert_eq.
Qed.

Lemma sandbox_joins_once (fields : list string) :
  (∀ f, In f fields →
        (length (List.filter
                   (λ s, bool_decide
                           (sql_eq (col r f) (col s "concept_id") = Some true))
                   (source_rows db ctes src)) ≤ 1)%nat) →
  ∀ (k : nat) (e : env),
    e !! A_d = Some r →
    ∃ e', eval_joins db ctes (jinja_for_from k J fields) e = [e'].
Proof.
  induction fields as [|f fields IH]; intros Hone k e Hd.
  - by eexists.
  - cbn [jinja_for_from eval_joins].
    destruct (sandbox_join_step_once k f e Hd) as [e1 He1];
      [apply Hone; by left|].
    assert (In e1 (left_join_step db ctes (J k f) e)) as Hin
      by (rewrite He1; by left).
    apply sandbox_join_step in Hin as (s & -> & _); [|done].
    rewrite He1. cbn [flat_map]. rewrite app_nil_r.
    apply IH.
    + intros f' Hf'. apply Hone. by right.
    + by rewrite lookup_insert_ne.
Qed.

End SandboxJoins.

(** A column without repeated values holds a given value at most once. *)
Lemma NoDup_matches_once (g : row → value) (l : list row) (v : value) :
  List.NoDup (List.filter (λ w, negb (is_null w)) (map g l)) →
  (length (List.filter (λ s, bool_decide (sql_eq v (g s) = Some true)) l)
   ≤ 1)%nat.
Proof.
  induction l as [|s l IH]; [simpl; lia|].
  cbn [map List.filter]. intros Hnd.
  destruct (is_null (g s)) eqn:Hnull; cbn [negb] in Hnd.
  - rewrite bool_decide_eq_false_2; [by apply IH|].
    intros Hm%sql_eq_not_null_r. congruence.
  - apply NoDup_cons_iff in Hnd as [Hnotin Hnd].
    case_bool_decide as Hm; [|by apply IH].
    rewrite filter_none; [simpl; lia|].
    intros s' Hs'. apply bool_decide_eq_false. intros Hm'.
    apply sql_eq_true in Hm as [-> _]. apply sql_eq_true in Hm' as [Heq _].
    apply Hnotin. apply filter_In. split.
    + rewrite Heq. apply in_map_iff. eauto.
    + by rewrite Hnull.
Qed.

End SqlFacts.

(** ** The queries of the suppression rules *)

Module ConceptSuppressionFacts.
Import Py Sql ConceptSuppression SqlFacts.

Lemma jinja_for_from_map {A B} (g : A → B) (l : list A) :
  ∀ k, jinja_for_from k (λ _ x, g x) l = map g l.
Proof. induction l as [|x l IH]; intros k; simpl; [done|]. by rewrite IH. Qed.

Lemma jinja_for_map {A B} (g : A → B) (l : list A) :
  jinja_for (λ _ x, g x) l = map g l.
Proof. apply jinja_for_from_map. Qed.

Lemma jinja_for_from_length {A B} (body : nat → A → B) (l : list A) :
  ∀ k, length (jinja_for_from k body l) = length l.
Proof. induction l as [|x l IH]; intros k; simpl; [done|]. by rewrite IH. Qed.

(** The shape shared by the two sandbox templates: the rows of the
    domain table for which some join found a partner. *)
Lemma sandbox_select_In (db : database) (ctes : list (string * cte))
    (src : source) (p d t : string) (fields : list string) (r : row) :
  In r (eval_select db
          {| sel_with := ctes;
             sel_projection := Star A_d;
             sel_from := Table p d t;
             sel_from_as := A_d;
             sel_joins :=
               jinja_for
                 (λ index concept_field,
                    LeftJoin src (A_sn index)
                      (Eq (Col A_d concept_field)
                          (Col (A_sn index) "concept_id")))
                 fields;
             sel_where :=
               IsNotNull
                 (Coalesce
                    (jinja_for (λ index _, Col (A_sn index) "concept_id")
                       fields)) |})
  ↔ In r (db p d t)
    ∧ ∃ f s, In f fields ∧ In s (source_rows db ctes src)
             ∧ col r f = col s "concept_id" ∧ col r f ≠ VNull.
Proof.
  unfold eval_select, jinja_for. cbn [sel_with sel_projection sel_from
    sel_from_as sel_joins sel_where source_rows].
  rewrite in_flat_map. split.
  - intros (r0 & Hr0 & (e' & Hp & [He' Hh]%filter_In)%in_map_iff).
    eapply sandbox_joins in He' as (Hd & _ & Hnull);
      [|apply lookup_singleton_eq].
    simpl in Hp. rewrite Hd in Hp. simpl in Hp. subst r0.
    split; [done|].
    unfold holds in Hh. cbn [eval_cond] in Hh. rewrite Hnull in Hh.
    rewrite negb_involutive in Hh.
    destruct (existsb _ fields) eqn:Hex; [|done].
    apply existsb_exists in Hex as (f & Hf & Hex).
    apply existsb_exists in Hex as (s & Hs & Heq).
    apply bool_decide_eq_true, sql_eq_true in Heq as [Heq Hn].
    eauto 8.
  - intros (Hr & f & s & Hf & Hs & Heq & Hn).
    exists r. split; [done|].
    pose proof (eval_joins_nonempty db ctes
      (jinja_for_from 1
         (λ index concept_field,
            LeftJoin src (A_sn index)
              (Eq (Col A_d concept_field) (Col (A_sn index) "concept_id")))
         fields) {[A_d := r]}) as Hne.
    destruct (eval_joins _ _ _ _) as [|e' l] eqn:Hj; [done|].
    assert (In e' (eval_joins db ctes
      (jinja_for_from 1
         (λ index concept_field,
            LeftJoin src (A_sn index)
              (Eq (Col A_d concept_field) (Col (A_sn index) "concept_id")))
         fields) {[A_d := r]})) as He' by (rewrite Hj; by left).
    pose proof He' as Hin. rewrite Hj in Hin.
    eapply sandbox_joins in He' as (Hd & _ & Hnull);
      [|apply lookup_singleton_eq].
    apply in_map_iff. exists e'. split.
    + simpl. by rewrite Hd.
    + apply filter_In. split; [done|].
      unfold holds. cbn [eval_cond]. rewrite Hnull, negb_involutive.
      assert (existsb
        (λ f0, existsb
           (λ s0, bool_decide
              (sql_eq (col r f0) (col s0 "concept_id") = Some true))
           (source_rows db ctes src)) fields = true) as ->; [|done].
      apply existsb_exists. exists f. split; [done|].
      apply existsb_exists. exists s. split; [done|].
      apply bool_decide_eq_true, sql_eq_true. done.
Qed.

(** When no value other than NULL occurs twice in the joined column,
    every such row is returned once; the list is that of the rows of
    the table that have a partner. *)
Lemma sandbox_select_once (db : database) (ctes : list (string * cte))
    (src : source) (p d t : string) (fields : list string) :
  List.NoDup
    (List.filter (λ w, negb (is_null w))
       (map (λ s, col s "concept_id") (source_rows db ctes src))) →
  eval_select db
    {| sel_with := ctes;
       sel_projection := Star A_d;
       sel_from := Table p d t;
       sel_from_as := A_d;
       sel_joins :=
         jinja_for
           (λ index concept_field,
              LeftJoin src (A_sn index)
                (Eq (Col A_d concept_field)
                    (Col (A_sn index) "concept_id")))
           fields;
       sel_where :=
         IsNotNull
           (Coalesce
              (jinja_for (λ index _, Col (A_sn index) "concept_id")
                 fields)) |}
  = List.filter
      (λ r, existsb
              (λ f, existsb
                      (λ s, bool_decide
                              (sql_eq (col r f) (col s "concept_id")
                               = Some true))
                      (source_rows db ctes src))
              fields)
      (db p d t).
Proof.
  intros Hnd. unfold eval_select, jinja_for.
  cbn [sel_with sel_projection sel_from sel_from_as sel_joins sel_where
       source_rows].
  induction (db p d t) as [|r l IH]; [done|].
  cbn [flat_map List.filter]. rewrite IH. clear IH.
  destruct (sandbox_joins_once db ctes src r fields
              (λ f _, NoDup_matches_once _ _ (col r f) Hnd)
              1%nat {[A_d := r]} (lookup_singleton_eq _ _)) as [e' He'].
  rewrite He'.
  assert (In e' (eval_joins db ctes
    (jinja_for_from 1
       (λ index concept_field,
          LeftJoin src (A_sn index)
            (Eq (Col A_d concept_field) (Col (A_sn index) "concept_id")))
       fields) {[A_d := r]})) as Hin by (rewrite He'; by left).
  eapply sandbox_joins in Hin as (Hd & _ & Hnull);
    [|apply lookup_singleton_eq].
  cbn [List.filter]. unfold holds. cbn [eval_cond].
  rewrite Hnull, negb_involutive.
  destruct (existsb _ fields); [|done].
  cbn [map project app]. by rewrite Hd.
Qed.

(** The anti-join of the suppression template keeps a row once when
    no sandbox row carries its key, and not at all otherwise. *)
Lemma suppression_select (db : database)
    (p d sd t st : string) :
  eval_select db (SUPPRESSION_RECORD_QUERY_TEMPLATE p d sd t st)
  = List.filter
      (λ r, negb (existsb
                    (λ s, bool_decide
                            (sql_eq (col r (t ++ "_id")) (col s (t ++ "_id"))
                             = Some true))
                    (db p sd st)))
      (db p d t).
Proof.
  unfold eval_select, SUPPRESSION_RECORD_QUERY_TEMPLATE.
  cbn [sel_with sel_projection sel_from sel_from_as sel_joins sel_where
       source_rows eval_joins].
  induction (db p d t) as [|r l IH]; [done|].
  cbn [flat_map List.filter]. rewrite IH. clear IH.
  rewrite flat_map_singleton.
  assert (∀ s, holds (<[A_s := s]> ({[A_d := r]} : env))
                 (Eq (Col A_d (t ++ "_id")) (Col A_s (t ++ "_id")))
               = bool_decide (sql_eq (col r (t ++ "_id")) (col s (t ++ "_id"))
                              = Some true)) as Hholds.
  { intros s. unfold holds. cbn [eval_cond eval_expr].
    rewrite eval_col_insert_eq, eval_col_insert_ne by done.
    unfold eval_col. rewrite lookup_singleton_eq.
    destruct (sql_eq _ _) as [[]|]; by case_bool_decide. }
  unfold left_join_step. cbn [lj_source lj_as lj_on source_rows].
  destruct (existsb _ (db p sd st)) eqn:Hex; cbn [negb].
  - apply existsb_exists in Hex as (s & Hs & Hm).
    destruct (List.filter _ (map _ (db p sd st))) as [|e1 l1] eqn:Hf.
    + exfalso. assert (In (<[A_s := s]> ({[A_d := r]} : env)) []) as [].
      rewrite <- Hf. apply filter_In. split.
      * apply in_map_iff. eauto.
      * by rewrite Hholds.
    + rewrite <- Hf. clear Hf e1 l1.
      rewrite filter_none; [done|].
      intros e' [(s' & <- & Hs')%in_map_iff Hh]%filter_In.
      rewrite Hholds in Hh. apply bool_decide_eq_true in Hh.
      unfold holds. cbn [eval_cond eval_expr].
      rewrite eval_col_insert_eq.
      by rewrite (sql_eq_not_null_r _ _ Hh).
  - rewrite (filter_none _ (map _ (db p sd st))).
    + cbn [List.filter flat_map]. unfold holds. cbn [eval_cond eval_expr].
      rewrite eval_col_insert_eq, col_empty. cbn.
      rewrite lookup_insert_ne by done. by rewrite lookup_singleton_eq.
    + intros e' (s' & <- & Hs')%in_map_iff.
      rewrite Hholds. apply not_true_iff_false. intros Hh.
      apply not_true_iff_false in Hex. apply Hex.
      apply existsb_exists. eauto.
Qed.

End ConceptSuppressionFacts.

(** ** The claims about concept_suppression.py *)

Module ConceptSuppressionClaims.
Import Py Sql ConceptSuppression SqlFacts ConceptSuppressionFacts.

Lemma no_member_nil {A} (l : list A) : (∀ x, ¬ In x l) → l = [].
Proof. destruct l as [|x l]; [done|]. intros H. destruct (H x). by left. Qed.

Section Sandbox.

Variable get_concept_id_fields : string → list string.

Lemma bq_sandbox_In (db : database) (self : BqLookupTableRule)
    (t : string) (r : row) :
  In r (selected db (QUERY (bq_get_sandbox_query get_concept_id_fields
                              self t)))
  ↔ In r (db (project_id (bq_base self)) (dataset_id (bq_base self)) t)
    ∧ ∃ f s, In f (get_concept_id_fields t)
             ∧ In s (db (project_id (bq_base self))
                        (sandbox_dataset_id (bq_base self))
                        (concept_suppression_lookup_table self))
             ∧ col r f = col s "concept_id" ∧ col r f ≠ VNull.
Proof. apply sandbox_select_In. Qed.

Lemma im_sandbox_In (db : database) (self : InMemoryRule)
    (t : string) (r : row) :
  In r (selected db (QUERY (im_get_sandbox_query get_concept_id_fields
                              self t)))
  ↔ In r (db (project_id (im_base self)) (dataset_id (im_base self)) t)
    ∧ ∃ f c, In f (get_concept_id_fields t)
             ∧ In c (get_suppressed_concept_ids self)
             ∧ col r f = VInt c.
Proof.
  unfold im_get_sandbox_query, IN_MEMORY_SANDBOX_QUERY_TEMPLATE.
  cbn [QUERY selected]. rewrite sandbox_select_In.
  cbn [source_rows lookup_cte]. rewrite bool_decide_eq_true_2 by done.
  unfold cte_rows. cbn [unnest_elems unnest_as].
  rewrite jinja_for_map. split.
  - intros (Hr & f & s & Hf & Hs & Heq & Hn). split; [done|].
    apply in_map_iff in Hs as (v & <- & (c & <- & Hc)%in_map_iff).
    exists f, c. split; [done|]. split; [done|].
    rewrite Heq. unfold col. by rewrite lookup_singleton_eq.
  - intros (Hr & f & c & Hf & Hc & Heq). split; [done|].
    exists f, {[ "concept_id" := VInt c ]}. split; [done|]. split.
    + apply in_map_iff. exists (VInt c). split; [done|].
      apply in_map_iff. eauto.
    + rewrite Heq. unfold col. by rewrite lookup_singleton_eq.
Qed.

(** With identifiers that are pairwise distinct, the in-memory
    variant returns every such row once: the list of the rows of the
    table that hold a listed identifier. *)
Lemma im_sandbox_once (db : database) (self : InMemoryRule) (t : string) :
  List.NoDup (get_suppressed_concept_ids self) →
  selected db (QUERY (im_get_sandbox_query get_concept_id_fields self t))
  = List.filter
      (λ r, existsb
              (λ f, existsb (λ c, bool_decide (col r f = VInt c))
                      (get_suppressed_concept_ids self))
              (get_concept_id_fields t))
      (db (project_id (im_base self)) (dataset_id (im_base self)) t).
Proof.
  intros Hnd.
  unfold im_get_sandbox_query, IN_MEMORY_SANDBOX_QUERY_TEMPLATE.
  cbn [QUERY selected]. rewrite sandbox_select_once.
  - cbn [source_rows lookup_cte]. rewrite bool_decide_eq_true_2 by done.
    unfold cte_rows. cbn [unnest_elems unnest_as]. rewrite jinja_for_map.
    apply filter_ext. intros r. apply existsb_pointwise. intros f.
    clear Hnd.
    induction (get_suppressed_concept_ids self) as [|c l IH]; [done|].
    cbn [map existsb]. rewrite IH. f_equal.
    apply bool_decide_ext. unfold col at 2. rewrite lookup_singleton_eq.
    cbn [default]. rewrite sql_eq_true. split; [by intros [-> _]|].
    intros ->. done.
  - cbn [source_rows lookup_cte]. rewrite bool_decide_eq_true_2 by done.
    unfold cte_rows. cbn [unnest_elems unnest_as]. rewrite jinja_for_map.
    rewrite map_map. apply List.NoDup_filter.
    rewrite (map_ext _ (λ v, v)), map_id.
    + apply NoDup_map_injective; [|done]. by intros ? ? [=].
    + intros v. unfold col. by rewrite lookup_singleton_eq.
Qed.

(** An identifier listed twice returns its rows twice: [row_a] matches
    in one column, [row_c] in both. *)
Example repeated_identifier_repeats_rows :
  map (λ r, col r "condition_occurrence_id")
    (selected Examples.warehouse
       (QUERY (im_get_sandbox_query Examples.concept_id_fields
                 {| im_base := Examples.rule;
                    get_suppressed_concept_ids := [99; 99] |}
                 "condition_occurrence")))
  = [VInt 1; VInt 1; VInt 3; VInt 3; VInt 3; VInt 3].
Proof. by vm_compute. Qed.

(** C1. On every table with at least one concept-id column, the
    sandbox query of either variant returns exactly the rows of the
    table in which some concept-id column holds a (non-NULL) value
    found in the denylist: the [concept_id] column of the lookup
    table for the lookup-table variant, the inlined list for the
    in-memory variant. One matching column is enough. With an empty
    denylist the query returns no row. *)
Theorem C1_sandbox_query_selects_rows_with_a_suppressed_concept
    (db : database) (bq : BqLookupTableRule) (im : InMemoryRule)
    (t : string) :
  get_concept_id_fields t ≠ [] →
  (∀ r,
     In r (selected db (QUERY (bq_get_sandbox_query get_concept_id_fields
                                 bq t)))
     ↔ In r (db (project_id (bq_base bq)) (dataset_id (bq_base bq)) t)
       ∧ ∃ f c, In f (get_concept_id_fields t)
                ∧ In c (map (λ s, col s "concept_id")
                          (db (project_id (bq_base bq))
                              (sandbox_dataset_id (bq_base bq))
                              (concept_suppression_lookup_table bq)))
                ∧ c ≠ VNull ∧ col r f = c)
  ∧ (∀ r,
       In r (selected db (QUERY (im_get_sandbox_query
                                   get_concept_id_fields im t)))
       ↔ In r (db (project_id (im_base im)) (dataset_id (im_base im)) t)
         ∧ ∃ f c, In f (get_concept_id_fields t)
                  ∧ In c (get_suppressed_concept_ids im)
                  ∧ col r f = VInt c)
  ∧ (db (project_id (bq_base bq)) (sandbox_dataset_id (bq_base bq))
        (concept_suppression_lookup_table bq) = [] →
     selected db (QUERY (bq_get_sandbox_query get_concept_id_fields bq t))
     = [])
  ∧ (get_suppressed_concept_ids im = [] →
     selected db (QUERY (im_get_sandbox_query get_concept_id_fields im t))
     = []).
Proof.
  intros _. split; [|split; [|split]].
  - intros r. split.
    + intros (Hr & f & s & Hf & Hs & Heq & Hn)%bq_sandbox_In.
      split; [done|]. exists f, (col s "concept_id").
      split; [done|]. split; [|split; [congruence|done]].
      apply in_map_iff. eauto.
    + intros (Hr & f & c & Hf & (s & <- & Hs)%in_map_iff & Hn & Heq).
      apply bq_sandbox_In. split; [done|]. exists f, s.
      split; [done|]. split; [done|]. split; congruence.
  - intros r. apply im_sandbox_In.
  - intros Hempty. apply no_member_nil.
    intros r (_ & f & s & _ & Hs & _)%bq_sandbox_In.
    by rewrite Hempty in Hs.
  - intros Hempty. apply no_member_nil.
    intros r (_ & f & c & _ & Hc & _)%im_sandbox_In.
    by rewrite Hempty in Hc.
Qed.

(** C8. Take the two variants over one configuration, and a
    warehouse whose lookup table holds in its [concept_id] column
    exactly the identifiers that [get_suppressed_concept_ids]
    returns. Then for every table the two sandbox queries return the
    same set of rows, and the two specifications name the same
    destination table, destination dataset and write disposition. *)
Theorem C8_lookup_table_and_in_memory_sandbox_queries_agree
    (db : database) (bq : BqLookupTableRule) (im : InMemoryRule)
    (t : string) :
  bq_base bq = im_base im →
  (∀ v, In v (map (λ s, col s "concept_id")
                (db (project_id (bq_base bq))
                    (sandbox_dataset_id (bq_base bq))
                    (concept_suppression_lookup_table bq)))
        ↔ In v (map VInt (get_suppressed_concept_ids im))) →
  (∀ r,
     In r (selected db (QUERY (bq_get_sandbox_query get_concept_id_fields
                                 bq t)))
     ↔ In r (selected db (QUERY (im_get_sandbox_query
                                   get_concept_id_fields im t))))
  ∧ DESTINATION_TABLE (bq_get_sandbox_query get_concept_id_fields bq t)
    = DESTINATION_TABLE (im_get_sandbox_query get_concept_id_fields im t)
  ∧ DESTINATION_DATASET (bq_get_sandbox_query get_concept_id_fields bq t)
    = DESTINATION_DATASET (im_get_sandbox_query get_concept_id_fields im t)
  ∧ DISPOSITION (bq_get_sandbox_query get_concept_id_fields bq t)
    = DISPOSITION (im_get_sandbox_query get_concept_id_fields im t).
Proof.
  intros Hbase Hsame. split; [|by cbn; rewrite Hbase].
  intros r. rewrite bq_sandbox_In, im_sandbox_In, Hbase. split.
  - intros (Hr & f & s & Hf & Hs & Heq & Hn). split; [done|].
    assert (In (col s "concept_id")
              (map VInt (get_suppressed_concept_ids im))) as Hc.
    { apply Hsame. rewrite Hbase. apply in_map_iff. eauto. }
    apply in_map_iff in Hc as (c & Hc & Hin).
    exists f, c. split; [done|]. split; [done|]. congruence.
  - intros (Hr & f & c & Hf & Hc & Heq). split; [done|].
    assert (In (VInt c) (map (λ s, col s "concept_id")
                (db (project_id (bq_base bq))
                    (sandbox_dataset_id (bq_base bq))
                    (concept_suppression_lookup_table bq)))) as Hs.
    { apply Hsame. apply in_map_iff. eauto. }
    apply in_map_iff in Hs as (s & Hs & Hin).
    rewrite Hbase in Hin.
    exists f, s. split; [done|]. split; [done|].
    split; congruence.
Qed.

End Sandbox.

Section Abstract.

Context {R : Type} `{ConceptSuppressionRule R}.

(** C4. For every table [t], the suppression query returns exactly
    the rows of the original table whose identifier [t_id] is not
    the identifier of a row of [t]'s sandbox table (each such row
    once, in the table's order), and the specification writes them
    to [t] in the rule's dataset with WRITE_TRUNCATE. Identifiers
    are compared as SQL compares them: NULL equals nothing. *)
Theorem C4_suppression_query_keeps_rows_absent_from_sandbox
    (self : R) (t : string) (db : database) :
  let spec := get_suppression_query self t in
  let original := db (project_id (base self)) (dataset_id (base self)) t in
  let sandbox :=
    db (project_id (base self)) (sandbox_dataset_id (base self))
      (sandbox_table_for (base self) t) in
  (∀ r, In r (selected db (QUERY spec))
        ↔ In r original
          ∧ ¬ ∃ s, In s sandbox
                   ∧ col s (t ++ "_id") = col r (t ++ "_id")
                   ∧ col r (t ++ "_id") ≠ VNull)
  ∧ selected db (QUERY spec)
    = List.filter
        (λ r, negb (existsb
                      (λ s, bool_decide
                              (col s (t ++ "_id") = col r (t ++ "_id")
                               ∧ col r (t ++ "_id") ≠ VNull))
                      sandbox))
        original
  ∧ DESTINATION_TABLE spec = Some t
  ∧ DESTINATION_DATASET spec = Some (dataset_id (base self))
  ∧ DISPOSITION spec = Some WRITE_TRUNCATE.
Proof.
  intros spec original sandbox.
  assert (selected db (QUERY spec)
    = List.filter
        (λ r, negb (existsb
                      (λ s, bool_decide
                              (col s (t ++ "_id") = col r (t ++ "_id")
                               ∧ col r (t ++ "_id") ≠ VNull))
                      sandbox))
        original) as Heq.
  { unfold spec, get_suppression_query. cbn [QUERY selected].
    rewrite suppression_select. apply filter_ext. intros r. f_equal.
    apply existsb_pointwise. intros s. apply bool_decide_ext.
    rewrite sql_eq_true. split; intros [? ?]; split; congruence. }
  split; [|done]. intros r. rewrite Heq, filter_In.
  rewrite negb_true_iff, <- not_true_iff_false, existsb_exists.
  split; intros [Hr Hn]; (split; [done|]); intros (s & Hs & Hm);
    apply Hn; exists s; (split; [done|]).
  - by apply bool_decide_eq_true.
  - by apply bool_decide_eq_true in Hm.
Qed.

(** C2. With one cleanup candidate per sandbox table, the list of
    [get_query_specs] is the sandbox specifications of the affected
    tables in their order, then their suppression specifications in
    the same order, then the cleanup specifications; it has
    3 * |T| entries. *)
Theorem C2_query_specs_grouped_by_phase (self : R) :
  let T := affected_tables (base self) in
  let specs :=
    get_query_specs spec_get_delete_empty_sandbox_tables_queries self in
  specs
  = (map (get_sandbox_query self) T
     ++ map (get_suppression_query self) T
     ++ spec_get_delete_empty_sandbox_tables_queries
          (project_id (base self)) (sandbox_dataset_id (base self))
          (map (sandbox_table_for (base self)) T))%list
  ∧ (3 * length T ≤ length specs)%nat
  ∧ length specs = (3 * length T)%nat
  ∧ ∀ (i : nat) (t : string),
      T !! i = Some t →
      specs !! i = Some (get_sandbox_query self t)
      ∧ specs !! (length T + i)%nat = Some (get_suppression_query self t)
      ∧ ∃ cleanup,
          specs !! (2 * length T + i)%nat = Some cleanup
          ∧ QUERY cleanup
            = DropIfEmpty (project_id (base self))
                (sandbox_dataset_id (base self))
                (sandbox_table_for (base self) t).
Proof.
  intros T specs.
  assert (length specs = (3 * length T)%nat) as Hlen.
  { unfold specs, get_query_specs, get_sandbox_tablenames,
      spec_get_delete_empty_sandbox_tables_queries.
    rewrite !length_app, !length_map. fold T. lia. }
  split; [done|]. split; [lia|]. split; [done|].
  intros i t Hi. unfold specs, get_query_specs, get_sandbox_tablenames,
    spec_get_delete_empty_sandbox_tables_queries. fold T.
  pose proof (lookup_lt_Some _ _ _ Hi) as Hlt.
  split; [|split].
  - rewrite lookup_app_l by (rewrite length_map; lia).
    change (map ?f T) with (f <$> T).
    by rewrite list_lookup_fmap, Hi.
  - rewrite lookup_app_r by (rewrite length_map; lia).
    rewrite length_map.
    replace (length T + i - length T)%nat with i by lia.
    rewrite lookup_app_l by (rewrite length_map; lia).
    change (map ?f T) with (f <$> T).
    by rewrite list_lookup_fmap, Hi.
  - eexists. split.
    + rewrite lookup_app_r by (rewrite length_map; lia).
      rewrite length_map.
      rewrite lookup_app_r by (rewrite length_map; lia).
      rewrite length_map.
      replace (2 * length T + i - length T - length T)%nat with i by lia.
      rewrite map_map.
      change (map ?f T) with (f <$> T).
      rewrite list_lookup_fmap, Hi. reflexivity.
    + reflexivity.
Qed.

End Abstract.

Section Construction.

Variable get_concept_id_fields : string → list string.
Variable has_domain_table_id : string → bool.

Lemma suppressible_spec (t : string) :
  suppressible get_concept_id_fields has_domain_table_id t
  = negb (bool_decide (get_concept_id_fields t = []))
    && has_domain_table_id t.
Proof. unfold suppressible. by destruct (get_concept_id_fields t). Qed.

(** C3. Construction keeps, in the order given, exactly the tables
    that declare a concept-id column and have an identifier column.
    It raises nothing: the constructor is a total function. The
    other tables produce no query, since every specification of
    [get_query_specs] comes from a table that was kept. *)
Theorem C3_construction_filters_affected_tables
    (sandbox_table_for : string → string)
    (project_id dataset_id sandbox_dataset_id : string)
    (issue_numbers : list string) (description : string)
    (affected_datasets tables : list string) :
  let rule :=
    AbstractConceptSuppression__init__ get_concept_id_fields
      has_domain_table_id sandbox_table_for project_id dataset_id
      sandbox_dataset_id issue_numbers description affected_datasets
      tables in
  let kept :=
    List.filter
      (λ t, negb (bool_decide (get_concept_id_fields t = []))
            && has_domain_table_id t)
      tables in
  affected_tables rule = kept
  ∧ (∀ t, In t (affected_tables rule)
          ↔ In t tables
            ∧ get_concept_id_fields t ≠ []
            ∧ has_domain_table_id t = true)
  ∧ ∀ (R : Type) (cls : ConceptSuppressionRule R) (self : R) cleanup,
      base self = rule →
      get_query_specs cleanup self
      = (map (get_sandbox_query self) kept
         ++ map (get_suppression_query self) kept
         ++ cleanup project_id sandbox_dataset_id
              (map sandbox_table_for kept))%list.
Proof.
  intros rule kept.
  assert (affected_tables rule = kept) as Hkept.
  { unfold rule, kept, AbstractConceptSuppression__init__,
      BaseCleaningRule__init__. cbn [affected_tables].
    apply filter_ext, suppressible_spec. }
  split; [done|]. split.
  - intros t. rewrite Hkept. unfold kept.
    rewrite filter_In, andb_true_iff, negb_true_iff,
      bool_decide_eq_false. tauto.
  - intros R cls self cleanup Hbase.
    unfold get_query_specs, get_sandbox_tablenames.
    by rewrite Hbase, Hkept.
Qed.

End Construction.

Section Resolver.

Lemma in_list_holds (v : value) (vs : list value) :
  match foldr (λ w acc, sql_or (sql_eq v w) acc) (Some false) vs with
  | Some true => true
  | _ => false
  end
  = existsb (λ w, bool_decide (sql_eq v w = Some true)) vs.
Proof.
  induction vs as [|w vs IH]; [done|]. cbn [foldr existsb].
  rewrite <- IH.
  destruct (sql_eq v w) as [[]|], (foldr _ _ vs) as [[]|];
    by try case_bool_decide.
Qed.

(** The metadata query returns the [table_id] of the listed tables
    that the candidates name. *)
Lemma metadata_select (db : database) (p d : string)
    (table_names : list string) :
  eval_select db (GET_ALL_TABLES_QUERY_TEMPLATE p d table_names)
  = map (λ r, {[ "table_id" := col r "table_id" ]})
      (List.filter
         (λ r, existsb
                 (λ w, bool_decide
                         (sql_eq (col r "table_id") w = Some true))
                 (map VStr table_names))
         (db p d "__TABLES__")).
Proof.
  unfold eval_select, GET_ALL_TABLES_QUERY_TEMPLATE.
  cbn [sel_with sel_projection sel_from sel_from_as sel_joins sel_where
       source_rows eval_joins]. rewrite jinja_for_map.
  rewrite (flat_map_filter_singleton (λ r, ({[A_unqualified := r]} : env))).
  rewrite (filter_ext _
    (λ r, existsb
            (λ w, bool_decide (sql_eq (col r "table_id") w = Some true))
            (map VStr table_names))).
  - apply map_ext. intros r. cbn [project]. unfold eval_col.
    by rewrite lookup_singleton_eq.
  - intros r. unfold holds. cbn [eval_cond eval_expr].
    rewrite in_list_holds. unfold eval_col.
    by rewrite lookup_singleton_eq.
Qed.

Lemma read_table_ids (l : list row) (g : row → value) (f : frame) :
  mapM (λ row, dict_getitem row TABLE_ID)
    (map (λ r, {[ "table_id" := g r ]}) l) f
  = (Return (map g l), f).
Proof.
  induction l as [|r l IH]; [done|].
  cbn [map mapM]. unfold mbind, M_bind, bind.
  unfold dict_getitem at 1, TABLE_ID at 1.
  rewrite lookup_singleton_eq. cbn.
  unfold mbind, M_bind, bind in IH. cbn in IH. by rewrite IH.
Qed.

Lemma count_occ_map_filter (g : row → value) (keep : row → bool)
    (l : list row) (v : value) :
  (count_occ value_eq_dec (map g (List.filter keep l)) v
   ≤ count_occ value_eq_dec (map g l) v)%nat.
Proof.
  induction l as [|r l IH]; [done|]. cbn [List.filter map].
  destruct (keep r); cbn [map count_occ];
    destruct (value_eq_dec (g r) v); lia.
Qed.

(** What a call makes of an engine error that the except clause
    names: the handler reads [result], which was never assigned. *)
Lemma engine_error_leaves_result_unbound (client : Client)
    (p d : string) (table_names : list string) (job : QueryJob) (e : exn) :
  client (GET_ALL_TABLES_QUERY_TEMPLATE p d table_names) = Return job →
  result job = Raise e →
  caught_by [GoogleCloudError; TimeoutError; RuntimeError] e = true →
  get_tables_in_dataset client p d table_names
  = (Raise (Exn UnboundLocalError [ArgStr "result"]), []).
Proof.
  intros Hjob Hres Hcaught.
  unfold get_tables_in_dataset, get_tables_in_dataset_frame.
  unfold mbind, M_bind, bind, lift_outcome, try_except.
  rewrite Hjob, Hres, Hcaught. reflexivity.
Qed.

(** C5. A job whose [result()] raises TimeoutError, and one whose
    [result()] raises GoogleCloudError: the call logs nothing and
    raises UnboundLocalError in place of the error of the engine. *)
Theorem C5_engine_error_is_neither_logged_nor_reraised :
  get_tables_in_dataset Examples.timeout_client "project" "dataset"
    ["condition_occurrence"]
  = (Raise (Exn UnboundLocalError [ArgStr "result"]), [])
  ∧ get_tables_in_dataset Examples.bad_request_client "project" "dataset"
      ["condition_occurrence"]
    = (Raise (Exn UnboundLocalError [ArgStr "result"]), []).
Proof.
  split; by eapply engine_error_leaves_result_unbound.
Qed.

(** What the call does when [result()] has returned and the job
    reports errors depends on the attribute [errors] of the result,
    not on the errors of the job. *)
Lemma reported_errors_outcome (client : Client)
    (p d : string) (table_names : list string) (job : QueryJob)
    (res : RowIterator) :
  client (GET_ALL_TABLES_QUERY_TEMPLATE p d table_names) = Return job →
  result job = Return res →
  truthy (job_errors job) = true →
  get_tables_in_dataset client p d table_names
  = match errors res with
    | Some detail =>
        (Raise (Exn RuntimeError [ArgList detail]),
         [ERROR_running_job (job_id res)
            (Exn RuntimeError [ArgList detail])])
    | None => (Raise (Exn AttributeError [ArgStr "errors"]), [])
    end.
Proof.
  intros Hjob Hres Herr.
  unfold get_tables_in_dataset, get_tables_in_dataset_frame.
  unfold mbind, M_bind, bind, lift_outcome, try_except.
  rewrite Hjob, Hres. cbn. rewrite Herr. unfold getattr_errors.
  unfold read_result. cbn. by destruct (errors res).
Qed.

(** C6. A job that completes and reports the error [invalidQuery].
    With the row iterator of the client library, reading
    [result.errors] raises AttributeError: no RuntimeError is raised and
    nothing is logged. With a stand-in that has the attribute, the
    RuntimeError wraps that attribute, here the empty list, and not the
    error that the job reported. *)
Theorem C6_reported_errors_are_not_wrapped :
  get_tables_in_dataset Examples.failed_job_client "project" "dataset"
    ["condition_occurrence"]
  = (Raise (Exn AttributeError [ArgStr "errors"]), [])
  ∧ get_tables_in_dataset Examples.stand_in_job_client "project" "dataset"
      ["condition_occurrence"]
    = (Raise (Exn RuntimeError [ArgList []]),
       [ERROR_running_job "job_1" (Exn RuntimeError [ArgList []])])
  ∧ Exn RuntimeError [ArgList []]
    ≠ Exn RuntimeError [ArgList ["invalidQuery"]].
Proof.
  split; [|split; [|done]].
  - by rewrite (reported_errors_outcome Examples.failed_job_client
                  "project" "dataset" ["condition_occurrence"]
                  _ _ eq_refl eq_refl eq_refl).
  - by rewrite (reported_errors_outcome Examples.stand_in_job_client
                  "project" "dataset" ["condition_occurrence"]
                  _ _ eq_refl eq_refl eq_refl).
Qed.

(** C7. When the job completes without errors and its rows are the
    answer of the warehouse to the metadata query, the call returns
    the [table_id] of those rows: every returned name is one of the
    candidates, and no name is returned more often than the
    warehouse lists it. *)
Theorem C7_resolved_tables_are_candidates (db : database)
    (client : Client) (p d : string) (table_names : list string)
    (job : QueryJob) (res : RowIterator) :
  client (GET_ALL_TABLES_QUERY_TEMPLATE p d table_names) = Return job →
  result job = Return res →
  truthy (job_errors job) = false →
  rows res = eval_select db (GET_ALL_TABLES_QUERY_TEMPLATE p d table_names) →
  ∃ returned,
    get_tables_in_dataset client p d table_names = (Return returned, [])
    ∧ returned = map (λ row, col row "table_id") (rows res)
    ∧ (∀ v, In v returned → ∃ t, v = VStr t ∧ In t table_names)
    ∧ ∀ v, (count_occ value_eq_dec returned v
            ≤ count_occ value_eq_dec
                (map (λ row, col row "table_id") (db p d "__TABLES__")) v)%nat.
Proof.
  intros Hjob Hres Herr Hrows.
  rewrite metadata_select in Hrows.
  exists (map (λ row, col row "table_id")
            (List.filter
               (λ r, existsb
                       (λ w, bool_decide
                               (sql_eq (col r "table_id") w = Some true))
                       (map VStr table_names))
               (db p d "__TABLES__"))).
  split; [|split; [|split]].
  - unfold get_tables_in_dataset, get_tables_in_dataset_frame.
    unfold mbind, M_bind, bind, lift_outcome, try_except.
    rewrite Hjob, Hres. cbn. rewrite Herr. cbn. rewrite Hrows.
    by rewrite read_table_ids.
  - rewrite Hrows, map_map. apply map_ext. intros r.
    unfold col at 2. by rewrite lookup_singleton_eq.
  - intros v (r & <- & [Hr Hex]%filter_In)%in_map_iff.
    apply existsb_exists in Hex as (w & (t & <- & Ht)%in_map_iff & Hw).
    apply bool_decide_eq_true, sql_eq_true in Hw as [Hw _]. eauto.
  - intros v. apply count_occ_map_filter.
Qed.

End Resolver.

(** *** The theorems at the sample data *)

Lemma C1_witness :
  Examples.concept_id_fields "condition_occurrence" ≠ []
  ∧ In Examples.row_a
      (selected Examples.warehouse
         (QUERY (im_get_sandbox_query Examples.concept_id_fields
                   Examples.in_memory_rule "condition_occurrence")))
  ∧ selected Examples.warehouse
      (QUERY (im_get_sandbox_query Examples.concept_id_fields
                {| im_base := Examples.rule;
                   get_suppressed_concept_ids := [] |}
                "condition_occurrence"))
    = [].
Proof.
  assert (Examples.concept_id_fields "condition_occurrence" ≠ []) as Hne
    by (vm_compute; discriminate).
  split; [exact Hne|]. split.
  - apply (C1_sandbox_query_selects_rows_with_a_suppressed_concept
             Examples.concept_id_fields Examples.warehouse
             Examples.lookup_rule Examples.in_memory_rule
             "condition_occurrence" Hne).
    split.
    { change (In Examples.row_a
                [Examples.row_a; Examples.row_b; Examples.row_c]).
      by left. }
    exists "condition_source_concept_id", 99.
    split; [right; by left|]. split; [by left|]. reflexivity.
  - apply (C1_sandbox_query_selects_rows_with_a_suppressed_concept
             Examples.concept_id_fields Examples.warehouse
             Examples.lookup_rule
             {| im_base := Examples.rule; get_suppressed_concept_ids := [] |}
             "condition_occurrence" Hne).
    reflexivity.
Defined.

Lemma C8_witness :
  In Examples.row_a
    (selected Examples.warehouse
       (QUERY (im_get_sandbox_query Examples.concept_id_fields
                 Examples.in_memory_rule "condition_occurrence")))
  ∧ DESTINATION_TABLE
      (bq_get_sandbox_query Examples.concept_id_fields
         Examples.lookup_rule "condition_occurrence")
    = DESTINATION_TABLE
        (im_get_sandbox_query Examples.concept_id_fields
           Examples.in_memory_rule "condition_occurrence").
Proof.
  destruct (C8_lookup_table_and_in_memory_sandbox_queries_agree
              Examples.concept_id_fields Examples.warehouse
              Examples.lookup_rule Examples.in_memory_rule
              "condition_occurrence" eq_refl)
    as (Hrows & Htable & _).
  - intros v. vm_compute. tauto.
  - split; [|exact Htable].
    apply (proj1 (Hrows Examples.row_a)).
    apply (proj2 (bq_sandbox_In Examples.concept_id_fields
                    Examples.warehouse Examples.lookup_rule
                    "condition_occurrence" Examples.row_a)).
    split.
    { change (In Examples.row_a
                [Examples.row_a; Examples.row_b; Examples.row_c]).
      by left. }
    exists "condition_source_concept_id", {[ "concept_id" := VInt 99 ]}.
    split; [right; by left|]. split; [by left|]. split; [reflexivity|].
    by vm_compute.
Defined.

Lemma C2_witness :
  get_query_specs spec_get_delete_empty_sandbox_tables_queries
    Examples.in_memory_rule !! 1%nat
  = Some (get_suppression_query Examples.in_memory_rule
            "condition_occurrence").
Proof.
  destruct (C2_query_specs_grouped_by_phase Examples.in_memory_rule)
    as (_ & _ & _ & Hidx).
  destruct (Hidx 0%nat "condition_occurrence" eq_refl) as (_ & Hsup & _).
  exact Hsup.
Defined.

Lemma C3_witness :
  get_query_specs spec_get_delete_empty_sandbox_tables_queries
    Examples.lookup_rule
  = (map (get_sandbox_query Examples.lookup_rule) ["condition_occurrence"]
     ++ map (get_suppression_query Examples.lookup_rule)
          ["condition_occurrence"]
     ++ spec_get_delete_empty_sandbox_tables_queries "project" "sandbox"
          ["dc1_condition_occurrence"])%list.
Proof.
  destruct (C3_construction_filters_affected_tables
              Examples.concept_id_fields Examples.domain_table_id
              Examples.naming "project" "dataset" "sandbox" ["DC-1"]
              "suppress concepts" ["dataset"]
              ["condition_occurrence"; "person"])
    as (_ & _ & Hspecs).
  exact (Hspecs BqLookupTableRule Examples.lookup_rule_class
           Examples.lookup_rule
           spec_get_delete_empty_sandbox_tables_queries eq_refl).
Defined.

Lemma C7_witness :
  ∃ returned,
    get_tables_in_dataset (warehouse_client Examples.warehouse "job_2")
      "project" "dataset" ["condition_occurrence"; "person"]
    = (Return returned, [])
    ∧ returned = [VStr "person"; VStr "condition_occurrence"; VStr "person"].
Proof.
  destruct (C7_resolved_tables_are_candidates Examples.warehouse
              (warehouse_client Examples.warehouse "job_2")
              "project" "dataset" ["condition_occurrence"; "person"]
              {| result :=
                   Return {| rows :=
                               eval_select Examples.warehouse
                                 (GET_ALL_TABLES_QUERY_TEMPLATE "project"
                                    "dataset"
                                    ["condition_occurrence"; "person"]);
                             job_id := "job_2";
                             errors := None |};
                 job_errors := None |}
              {| rows :=
                   eval_select Examples.warehouse
                     (GET_ALL_TABLES_QUERY_TEMPLATE "project" "dataset"
                        ["condition_occurrence"; "person"]);
                 job_id := "job_2";
                 errors := None |}
              eq_refl eq_refl eq_refl eq_refl)
    as (returned & Hcall & Hret & _).
  exists returned. split; [exact Hcall|]. rewrite Hret. by vm_compute.
Defined.

End ConceptSuppressionClaims.

(** ** The claims about slack_alerts.py *)

Module SlackAlertsClaims.
Import Py SlackAlerts.

(** Unfold one layer of the monad and of the module's helpers. *)
Ltac step :=
  unfold _get_slack_client, _get_slack_token, _get_slack_channel_name,
    conversations_list, chat_postMessage, send, logging_error, getitem,
    lift_outcome, try_except, raise, get, modify,
    mbind, mret, M_bind, M_ret, bind, ret;
  cbn [fst snd environ logged sent token].

(** Settle a goal whose premise equates two computed outcomes: they
    differ, or they fix the exception. *)
Ltac settle :=
  let Hx := fresh in
  intros Hx; vm_compute in Hx; inversion Hx; subst; try reflexivity.

Lemma for_channel_returns (channel_name : string)
    (channels : list channel) (w w' : world) (b : bool) :
  for_channel channel_name channels w = (Return (Some b), w') →
  b = true ∧ w' = w
  ∧ ∃ c, In c channels ∧ c !! "name" = Some channel_name.
Proof.
  induction channels as [|c channels IH]; [done|].
  cbn [for_channel]. step.
  destruct (c !! "name") as [name|] eqn:Hname; [|done].
  case_bool_decide as Heq.
  - intros [= <- <-]. subst name. split; [done|]. split; [done|].
    exists c. split; [by left|done].
  - intros (-> & -> & c' & Hc' & Hn)%IH. split; [done|]. split; [done|].
    exists c'. split; [by right|done].
Qed.

Lemma for_channel_state (channel_name : string)
    (channels : list channel) (w w' : world) (o : outcome (option bool)) :
  for_channel channel_name channels w = (o, w') → w' = w.
Proof.
  induction channels as [|c channels IH]; cbn [for_channel]; step.
  - by intros [= _ <-].
  - destruct (c !! "name") as [name|]; [|by intros [= _ <-]].
    case_bool_decide; [by intros [= _ <-]|]. apply IH.
Qed.

Lemma for_channel_raises (channel_name : string)
    (channels : list channel) (w w' : world) (e : exn) :
  for_channel channel_name channels w = (Raise e, w') →
  exn_cls e = KeyError.
Proof.
  induction channels as [|c channels IH]; cbn [for_channel]; step; [done|].
  destruct (c !! "name") as [name|]; [|by intros [= <- _]].
  case_bool_decide; [done|]. apply IH.
Qed.

Section Service.

Variable conversations_list_answer : string → Z → outcome SlackResponse.
Variable chat_postMessage_answer :
  string → string → string → outcome SlackResponse.

(** C9. With the token or the channel name missing from the
    environment, [post_message] raises SlackConfigurationError and
    has sent no request; the class is not that of a delivery
    failure. With both present, the request is sent and the outcome
    is the answer of the service, so a delivery failure is only ever
    raised after the request. *)
Theorem C9_post_message_needs_configuration (text : string) (w : world) :
  (environ w !! SLACK_TOKEN = None ∨ environ w !! SLACK_CHANNEL = None →
   ∃ e, post_message chat_postMessage_answer text w = (Raise e, w)
        ∧ exn_cls e = SlackConfigurationError
        ∧ issubclass (exn_cls e) SlackApiError = false
        ∧ (e = SlackConfigurationError_ UNSET_SLACK_TOKEN_MSG
           ∨ e = SlackConfigurationError_ UNSET_SLACK_CHANNEL_MSG))
  ∧ ∀ tok ch,
      environ w !! SLACK_TOKEN = Some tok →
      environ w !! SLACK_CHANNEL = Some ch →
      post_message chat_postMessage_answer text w
      = (chat_postMessage_answer tok ch text,
         {| environ := environ w;
            logged := logged w;
            sent := sent w ++ [chat_postMessage_request tok ch text false] |}).
Proof.
  split.
  - intros Hmissing. unfold post_message. step.
    destruct (environ w !! SLACK_TOKEN) as [tok|] eqn:Htok.
    + destruct Hmissing as [?|Hch]; [done|]. rewrite Hch.
      eexists. split; [reflexivity|]. split; [done|]. split; [done|].
      by right.
    + eexists. split; [reflexivity|]. split; [done|]. split; [done|].
      by left.
  - intros tok ch Htok Hch. unfold post_message. step.
    rewrite Htok, Hch. reflexivity.
Qed.

(** C10. [is_channel_available] returns False, after logging the
    error, when a variable is missing or when the listing raises
    SlackApiError; it raises neither of the two classes; and it
    returns True only when the listing answered with status 200 and
    a channel of the configured name. *)
Theorem C10_is_channel_available (w : world) :
  (environ w !! SLACK_TOKEN = None ∨ environ w !! SLACK_CHANNEL = None →
   ∃ e, exn_cls e = SlackConfigurationError
        ∧ is_channel_available conversations_list_answer w
          = (Return false,
             {| environ := environ w;
                logged := logged w ++ [e];
                sent := sent w |}))
  ∧ (∀ tok ch e,
       environ w !! SLACK_TOKEN = Some tok →
       environ w !! SLACK_CHANNEL = Some ch →
       conversations_list_answer tok sys_maxsize = Raise e →
       issubclass (exn_cls e) SlackApiError = true →
       is_channel_available conversations_list_answer w
       = (Return false,
          {| environ := environ w;
             logged := logged w ++ [e];
             sent := sent w
                     ++ [conversations_list_request tok sys_maxsize] |}))
  ∧ (∀ e w',
       is_channel_available conversations_list_answer w = (Raise e, w') →
       caught_by [SlackConfigurationError; SlackApiError] e = false)
  ∧ ∀ w',
      is_channel_available conversations_list_answer w
      = (Return true, w') →
      ∃ tok ch response channels c,
        environ w !! SLACK_TOKEN = Some tok
        ∧ environ w !! SLACK_CHANNEL = Some ch
        ∧ conversations_list_answer tok sys_maxsize = Return response
        ∧ status_code response = 200
        ∧ data response !! "channels" = Some channels
        ∧ In c channels
        ∧ c !! "name" = Some ch.
Proof.
  split; [|split; [|split]].
  - intros Hmissing. unfold is_channel_available. step.
    destruct (environ w !! SLACK_TOKEN) as [tok|] eqn:Htok.
    + destruct Hmissing as [?|Hch]; [done|]. rewrite Hch.
      eexists. split; [|reflexivity]. reflexivity.
    + eexists. split; [|reflexivity]. reflexivity.
  - intros tok ch e Htok Hch Hans Hsub.
    unfold is_channel_available. step.
    rewrite Htok, Hch. cbn [token]. rewrite Hans.
    unfold caught_by. cbn [existsb].
    rewrite Hsub, orb_true_r. reflexivity.
  - intros e w'. unfold is_channel_available. step.
    destruct (environ w !! SLACK_TOKEN) as [tok|]; [|settle].
    destruct (environ w !! SLACK_CHANNEL) as [ch|]; [|settle].
    cbn [token].
    destruct (conversations_list_answer tok sys_maxsize)
      as [response|e0] eqn:Hans.
    + case_bool_decide; [|settle].
      destruct (data response !! "channels") as [channels|]; [|settle].
      destruct (for_channel ch channels _) as [[[b|]|e1] w1] eqn:Hfor;
        [settle|settle|].
      apply for_channel_raises in Hfor.
      assert (caught_by [SlackConfigurationError; SlackApiError] e1
              = false) as Hc.
      { unfold caught_by, issubclass. rewrite Hfor. reflexivity. }
      rewrite Hc. by intros [= <- _].
    + destruct (caught_by _ e0) eqn:Hc; [settle|]. by intros [= <- _].
  - intros w'. unfold is_channel_available. step.
    destruct (environ w !! SLACK_TOKEN) as [tok|] eqn:Htok; [|settle].
    destruct (environ w !! SLACK_CHANNEL) as [ch|] eqn:Hch; [|settle].
    cbn [token].
    destruct (conversations_list_answer tok sys_maxsize)
      as [response|e0] eqn:Hans.
    + case_bool_decide as Hstatus; [|settle].
      destruct (data response !! "channels") as [channels|] eqn:Hdata;
        [|settle].
      destruct (for_channel ch channels _) as [[[b|]|e1] w1] eqn:Hfor.
      * apply for_channel_returns in Hfor as (-> & -> & c & Hc & Hname).
        intros _. exists tok, ch, response, channels, c. done.
      * settle.
      * apply for_channel_raises in Hfor.
        assert (caught_by [SlackConfigurationError; SlackApiError] e1
                = false) as Hc.
        { unfold caught_by, issubclass. rewrite Hfor. reflexivity. }
        rewrite Hc. done.
    + destruct (caught_by _ e0); [settle|done].
Qed.

End Service.

(** *** The theorems at the sample data *)

Lemma C9_witness :
  ∃ e, post_message Examples.delivered "hello" Examples.token_only
       = (Raise e, Examples.token_only)
       ∧ exn_cls e = SlackConfigurationError.
Proof.
  destruct (C9_post_message_needs_configuration Examples.delivered
              "hello" Examples.token_only) as [Hmissing _].
  destruct Hmissing as (e & Hrun & Hcls & _).
  - right. reflexivity.
  - exists e. split; [exact Hrun|exact Hcls].
Defined.

Lemma C10_witness :
  (∃ e, is_channel_available Examples.slack_up Examples.no_environment
        = (Return false,
           {| environ := ∅; logged := [e]; sent := [] |}))
  ∧ is_channel_available Examples.slack_down Examples.configured
    = (Return false,
       {| environ := environ Examples.configured;
          logged := [Exn SlackApiError [ArgStr "invalid_auth"]];
          sent := [conversations_list_request "xoxb" sys_maxsize] |}).
Proof.
  split.
  - destruct (C10_is_channel_available Examples.slack_up
                Examples.no_environment) as (Hmissing & _).
    destruct Hmissing as (e & _ & Hrun); [left; reflexivity|].
    exists e. exact Hrun.
  - destruct (C10_is_channel_available Examples.slack_down
                Examples.configured) as (_ & Hdown & _).
    exact (Hdown "xoxb" "alerts" (Exn SlackApiError [ArgStr "invalid_auth"])
             eq_refl eq_refl eq_refl eq_refl).
Defined.

End SlackAlertsClaims.

(** ** More about get_tables_in_dataset *)

Module ResolverFacts.
Import Py Sql ConceptSuppression SqlFacts ConceptSuppressionFacts.
Import ConceptSuppressionClaims.

(** Reading [table_id] off rows that all carry it. *)
Lemma read_rows_with_key (l : list row) (f : frame) :
  (∀ row, In row l → row !! "table_id" ≠ None) →
  mapM (λ row, dict_getitem row TABLE_ID) l f
  = (Return (map (λ row, col row "table_id") l), f).
Proof.
  induction l as [|r l IH]; intros Hall; [done|].
  cbn [map mapM]. unfold mbind, M_bind, bind.
  unfold dict_getitem at 1, TABLE_ID at 1. unfold col at 1.
  destruct (r !! "table_id") as [v|] eqn:Hr;
    [|by destruct (Hall r (or_introl eq_refl))].
  cbn. unfold mbind, M_bind, bind in IH. cbn in IH.
  rewrite IH; [done|]. intros row Hrow. apply Hall. by right.
Qed.

(** Reading [table_id] off rows one of which lacks it. *)
Lemma read_rows_without_key (l : list row) (f : frame) :
  (∃ row, In row l ∧ row !! "table_id" = None) →
  mapM (λ row, dict_getitem row TABLE_ID) l f
  = (Raise (Exn KeyError [ArgStr "table_id"]), f).
Proof.
  induction l as [|r l IH]; intros (row & Hin & Hnone); [done|].
  cbn [mapM]. unfold mbind, M_bind, bind.
  unfold dict_getitem at 1, TABLE_ID at 1.
  destruct (r !! "table_id") as [v|] eqn:Hr; [|done].
  cbn. unfold mbind, M_bind, bind in IH. cbn in IH.
  rewrite IH; [done|]. destruct Hin as [->|Hin]; [congruence|eauto].
Qed.

(** What the call returns once [result()] has returned without
    reported errors depends on the rows alone. *)
Lemma completed_job (client : Client) (p d : string)
    (table_names : list string) (job : QueryJob) (res : RowIterator) :
  client (GET_ALL_TABLES_QUERY_TEMPLATE p d table_names) = Return job →
  result job = Return res →
  truthy (job_errors job) = false →
  get_tables_in_dataset client p d table_names
  = (let '(o, f) :=
       try_except
         (mapM (λ row, dict_getitem row TABLE_ID) (rows res))
         [GoogleCloudError; TimeoutError; RuntimeError]
         (λ e,
            res ← read_result;
            LOGGER_error (ERROR_running_job (job_id res) e);;
            raise e)
         {| var_result := Some res; logged := [] |} in
     (o, logged f)).
Proof.
  intros Hjob Hres Herr.
  unfold get_tables_in_dataset, get_tables_in_dataset_frame.
  unfold mbind at 1, M_bind at 1, bind at 1, lift_outcome at 1.
  rewrite Hjob. unfold try_except.
  unfold mbind at 1, M_bind at 1, bind at 1, lift_outcome at 1.
  rewrite Hres. cbn. by rewrite Herr.
Qed.

(** X1. An error that the except clause cannot reach leaves the call
    as it is and is not logged: any error raised when the query is
    submitted, and an error of [result()] of a class that the clause
    does not name. *)
Theorem resolver_passes_on_errors_outside_the_handler (client : Client)
    (p d : string) (table_names : list string) (e : exn) :
  (client (GET_ALL_TABLES_QUERY_TEMPLATE p d table_names) = Raise e →
   get_tables_in_dataset client p d table_names = (Raise e, []))
  ∧ ∀ job,
      client (GET_ALL_TABLES_QUERY_TEMPLATE p d table_names) = Return job →
      result job = Raise e →
      caught_by [GoogleCloudError; TimeoutError; RuntimeError] e = false →
      get_tables_in_dataset client p d table_names = (Raise e, []).
Proof.
  split.
  - intros Hq. unfold get_tables_in_dataset, get_tables_in_dataset_frame.
    unfold mbind, M_bind, bind, lift_outcome. by rewrite Hq.
  - intros job Hjob Hres Hc.
    unfold get_tables_in_dataset, get_tables_in_dataset_frame.
    unfold mbind, M_bind, bind, lift_outcome, try_except.
    by rewrite Hjob, Hres, Hc.
Qed.

(** X2. When the job completes without reported errors and every row
    carries [table_id], the call returns the [table_id] values in the
    order of the rows and logs nothing. *)
Theorem resolver_returns_table_ids_in_row_order (client : Client)
    (p d : string) (table_names : list string) (job : QueryJob)
    (res : RowIterator) :
  client (GET_ALL_TABLES_QUERY_TEMPLATE p d table_names) = Return job →
  result job = Return res →
  truthy (job_errors job) = false →
  (∀ row, In row (rows res) → row !! "table_id" ≠ None) →
  get_tables_in_dataset client p d table_names
  = (Return (map (λ row, col row "table_id") (rows res)), []).
Proof.
  intros Hjob Hres Herr Hall.
  rewrite (completed_job _ _ _ _ _ _ Hjob Hres Herr).
  unfold try_except. by rewrite read_rows_with_key.
Qed.

(** X3. When the job completes without reported errors and some row
    has no [table_id], the call raises [KeyError('table_id')]; the
    except clause does not name it, so nothing is logged. *)
Theorem resolver_row_without_table_id_raises_KeyError (client : Client)
    (p d : string) (table_names : list string) (job : QueryJob)
    (res : RowIterator) :
  client (GET_ALL_TABLES_QUERY_TEMPLATE p d table_names) = Return job →
  result job = Return res →
  truthy (job_errors job) = false →
  (∃ row, In row (rows res) ∧ row !! "table_id" = None) →
  get_tables_in_dataset client p d table_names
  = (Raise (Exn KeyError [ArgStr "table_id"]), []).
Proof.
  intros Hjob Hres Herr Hmissing.
  rewrite (completed_job _ _ _ _ _ _ Hjob Hres Herr).
  unfold try_except. by rewrite read_rows_without_key.
Qed.

(** The call against a warehouse that answers: the [table_id] of the
    listed tables that a candidate names, in the order of the listing. *)
Lemma warehouse_resolve (db : database) (job : string) (p d : string)
    (table_names : list string) :
  get_tables_in_dataset (warehouse_client db job) p d table_names
  = (Return
       (map (λ row, col row "table_id")
          (List.filter
             (λ r, existsb
                     (λ w, bool_decide
                             (sql_eq (col r "table_id") w = Some true))
                     (map VStr table_names))
             (db p d "__TABLES__"))),
     []).
Proof.
  rewrite (completed_job _ _ _ _
             {| result := Return {| rows := eval_select db
                                     (GET_ALL_TABLES_QUERY_TEMPLATE p d
                                        table_names);
                                    job_id := job;
                                    errors := None |};
                job_errors := None |}
             {| rows := eval_select db
                          (GET_ALL_TABLES_QUERY_TEMPLATE p d table_names);
                job_id := job;
                errors := None |} eq_refl eq_refl eq_refl).
  cbn [rows]. rewrite metadata_select. unfold try_except.
  by rewrite read_table_ids.
Qed.

Lemma existsb_same_members {A} (f : A → bool) (l l' : list A) :
  (∀ x, In x l ↔ In x l') → existsb f l = existsb f l'.
Proof.
  intros Hsame. apply eq_true_iff_eq. rewrite !existsb_exists.
  split; intros (x & Hx & Hf); exists x; (split; [by apply Hsame|done]).
Qed.

(** X4. Against a warehouse that answers, a candidate that the listing
    of the dataset names is returned: together with C7, the call
    returns the candidates that exist. *)
Theorem resolver_returns_every_listed_candidate (db : database)
    (job : string) (p d : string) (table_names : list string) (t : string) :
  In t table_names →
  In (VStr t) (map (λ row, col row "table_id") (db p d "__TABLES__")) →
  ∃ returned,
    get_tables_in_dataset (warehouse_client db job) p d table_names
    = (Return returned, [])
    ∧ In (VStr t) returned.
Proof.
  intros Ht (r & Hr & Hin)%in_map_iff.
  eexists. split; [apply warehouse_resolve|].
  apply in_map_iff. exists r. split; [done|].
  apply filter_In. split; [done|].
  apply existsb_exists. exists (VStr t). split; [by apply in_map|].
  apply bool_decide_eq_true, sql_eq_true. by rewrite Hr.
Qed.

(** X5. Against a warehouse that answers, neither the order of the
    candidates nor their repetition matters: two lists with the same
    members resolve to the same list. *)
Theorem resolver_ignores_order_of_candidates (db : database) (job : string)
    (p d : string) (table_names table_names' : list string) :
  (∀ t, In t table_names ↔ In t table_names') →
  get_tables_in_dataset (warehouse_client db job) p d table_names
  = get_tables_in_dataset (warehouse_client db job) p d table_names'.
Proof.
  intros Hsame. rewrite !warehouse_resolve. do 3 f_equal.
  apply filter_ext. intros r. apply existsb_same_members. intros w.
  rewrite !in_map_iff.
  split; intros (t & <- & Ht); exists t; (split; [done|by apply Hsame]).
Qed.

(** X6. Resolving is idempotent: against the same warehouse, the names
    that a call returned resolve to themselves. *)
Theorem resolver_is_idempotent (db : database) (job : string)
    (p d : string) (table_names resolved : list string) :
  get_tables_in_dataset (warehouse_client db job) p d table_names
  = (Return (map VStr resolved), []) →
  get_tables_in_dataset (warehouse_client db job) p d resolved
  = (Return (map VStr resolved), []).
Proof.
  rewrite !warehouse_resolve. intros [= Hres]. rewrite <- Hres.
  do 3 f_equal. apply filter_ext_in. intros r Hr.
  apply eq_true_iff_eq. rewrite !existsb_exists. split.
  - intros (w & Hw & Hm).
    apply in_map_iff in Hw as (r' & <- & [_ Hkeep]%filter_In).
    apply bool_decide_eq_true, sql_eq_true in Hm as [Heq _].
    apply existsb_exists in Hkeep as (w & Hw & Hm'). exists w.
    split; [done|]. by rewrite Heq.
  - intros (w & Hw & Hm). exists (col r "table_id"). split.
    + apply in_map_iff. exists r. split; [done|].
      apply filter_In. split; [done|]. apply existsb_exists. eauto.
    + apply bool_decide_eq_true, sql_eq_true.
      apply bool_decide_eq_true, sql_eq_true in Hm as [_ Hn]. done.
Qed.

(** *** The theorems at the sample data *)

Lemma resolver_passes_on_errors_outside_the_handler_witness :
  get_tables_in_dataset SetupExamples.refusing_client "project" "dataset"
    ["person"]
  = (Raise (Exn GoogleCloudError [ArgStr "403 Forbidden"]), [])
  ∧ get_tables_in_dataset SetupExamples.interrupted_client "project"
      "dataset" ["person"]
    = (Raise (Exn KeyError [ArgStr "interrupted"]), []).
Proof.
  split.
  - apply (proj1 (resolver_passes_on_errors_outside_the_handler
                    SetupExamples.refusing_client "project" "dataset"
                    ["person"]
                    (Exn GoogleCloudError [ArgStr "403 Forbidden"]))).
    reflexivity.
  - apply (proj2 (resolver_passes_on_errors_outside_the_handler
                    SetupExamples.interrupted_client "project" "dataset"
                    ["person"] (Exn KeyError [ArgStr "interrupted"]))
             {| result := Raise (Exn KeyError [ArgStr "interrupted"]);
                job_errors := None |});
      reflexivity.
Defined.

Lemma resolver_returns_table_ids_in_row_order_witness :
  get_tables_in_dataset SetupExamples.plain_client "project" "dataset"
    ["person"]
  = (Return [VStr "person"; VStr "visit_occurrence"], []).
Proof.
  apply (resolver_returns_table_ids_in_row_order SetupExamples.plain_client
           "project" "dataset" ["person"]
           {| result := Return SetupExamples.two_rows; job_errors := None |}
           SetupExamples.two_rows eq_refl eq_refl eq_refl).
  intros row [<-|[<-|[]]]; by rewrite lookup_singleton_eq.
Defined.

Lemma resolver_row_without_table_id_raises_KeyError_witness :
  get_tables_in_dataset SetupExamples.ragged_client "project" "dataset"
    ["person"]
  = (Raise (Exn KeyError [ArgStr "table_id"]), []).
Proof.
  apply (resolver_row_without_table_id_raises_KeyError
           SetupExamples.ragged_client "project" "dataset" ["person"]
           {| result :=
                Return {| rows := [ {[ "table_id" := VStr "person" ]};
                                    {[ "dataset_id" := VStr "dataset" ]} ];
                          job_id := "job_3";
                          errors := None |};
              job_errors := None |}
           {| rows := [ {[ "table_id" := VStr "person" ]};
                        {[ "dataset_id" := VStr "dataset" ]} ];
              job_id := "job_3";
              errors := None |}
           eq_refl eq_refl eq_refl).
  exists {[ "dataset_id" := VStr "dataset" ]}. split.
  - right. by left.
  - reflexivity.
Defined.

Lemma resolver_returns_every_listed_candidate_witness :
  ∃ returned,
    get_tables_in_dataset (warehouse_client Examples.warehouse "job_2")
      "project" "dataset" ["condition_occurrence"; "person"]
    = (Return returned, [])
    ∧ In (VStr "person") returned.
Proof.
  apply (resolver_returns_every_listed_candidate Examples.warehouse "job_2"
           "project" "dataset" ["condition_occurrence"; "person"] "person").
  - right. by left.
  - left. reflexivity.
Defined.

Lemma resolver_ignores_order_of_candidates_witness :
  get_tables_in_dataset (warehouse_client Examples.warehouse "job_2")
    "project" "dataset" ["person"; "condition_occurrence"]
  = get_tables_in_dataset (warehouse_client Examples.warehouse "job_2")
      "project" "dataset" ["condition_occurrence"; "person"; "person"].
Proof.
  apply (resolver_ignores_order_of_candidates Examples.warehouse "job_2"
           "project" "dataset" ["person"; "condition_occurrence"]
           ["condition_occurrence"; "person"; "person"]).
  intros t. simpl. tauto.
Defined.

Lemma resolver_is_idempotent_witness :
  get_tables_in_dataset (warehouse_client Examples.warehouse "job_2")
    "project" "dataset" ["person"; "condition_occurrence"; "person"]
  = (Return [VStr "person"; VStr "condition_occurrence"; VStr "person"], []).
Proof.
  apply (resolver_is_idempotent Examples.warehouse "job_2" "project"
           "dataset" ["condition_occurrence"; "person"; "death"]
           ["person"; "condition_occurrence"; "person"]).
  reflexivity.
Defined.

End ResolverFacts.

(** ** The setup phase *)

Module SetupFacts.
Import Py Sql ConceptSuppression RuleSetup SqlFacts ConceptSuppressionFacts.
Import ConceptSuppressionClaims ResolverFacts.

(** [setup_rule] in terms of what [get_tables_in_dataset] does. *)
Lemma setup_rule_run (client : Client) (self : BaseCleaningRule)
    (s : setup_state) :
  setup_rule client self s
  = match get_tables_in_dataset client (project_id self) (dataset_id self)
            (affected_tables self) with
    | (Return tables, records) =>
        (Return tables,
         {| setup_logged :=
              setup_logged s ++ map from_get_tables_in_dataset records;
            lookup_tables_created := lookup_tables_created s |})
    | (Raise e, records) =>
        (Raise e,
         {| setup_logged :=
              (setup_logged s ++ map from_get_tables_in_dataset records)
              ++ (if caught_by [GoogleCloudError] e then [ERROR e] else []);
            lookup_tables_created := lookup_tables_created s |})
    end.
Proof.
  unfold setup_rule, try_except, call_get_tables_in_dataset.
  destruct (get_tables_in_dataset _ _ _ _) as [[tables|e] records]; [done|].
  destruct (caught_by [GoogleCloudError] e); [done|].
  by rewrite app_nil_r.
Qed.

Lemma setup_state_eta (s : setup_state) :
  {| setup_logged := setup_logged s ++ [];
     lookup_tables_created := lookup_tables_created s |} = s.
Proof. destruct s. cbn. by rewrite app_nil_r. Qed.

(** X7. An error of [result()] that the except clause of
    [get_tables_in_dataset] names never reaches [setup_rule]: the
    method raises the UnboundLocalError of the inner handler, and
    neither of the two handlers has logged anything. *)
Theorem setup_rule_loses_engine_errors (client : Client)
    (self : BaseCleaningRule) (s : setup_state) (job : QueryJob) (e : exn) :
  client (GET_ALL_TABLES_QUERY_TEMPLATE (project_id self) (dataset_id self)
            (affected_tables self)) = Return job →
  result job = Raise e →
  caught_by [GoogleCloudError; TimeoutError; RuntimeError] e = true →
  setup_rule client self s
  = (Raise (Exn UnboundLocalError [ArgStr "result"]), s).
Proof.
  intros Hjob Hres Hc. rewrite setup_rule_run.
  rewrite (engine_error_leaves_result_unbound _ _ _ _ _ _ Hjob Hres Hc).
  cbn. by rewrite app_nil_r, setup_state_eta.
Qed.

(** X8. An error raised when the query is submitted is re-raised as it
    is; [setup_rule] logs it, once, exactly when it is a
    GoogleCloudError. *)
Theorem setup_rule_logs_submission_errors (client : Client)
    (self : BaseCleaningRule) (s : setup_state) (e : exn) :
  client (GET_ALL_TABLES_QUERY_TEMPLATE (project_id self) (dataset_id self)
            (affected_tables self)) = Raise e →
  setup_rule client self s
  = (Raise e,
     {| setup_logged :=
          setup_logged s
          ++ (if issubclass (exn_cls e) GoogleCloudError then [ERROR e]
              else []);
        lookup_tables_created := lookup_tables_created s |}).
Proof.
  intros Hq. rewrite setup_rule_run.
  destruct (resolver_passes_on_errors_outside_the_handler client
              (project_id self) (dataset_id self) (affected_tables self) e)
    as [Hsub _].
  rewrite (Hsub Hq). cbn [map]. rewrite app_nil_r.
  unfold caught_by. cbn [existsb]. by rewrite orb_false_r.
Qed.

Section Construction.

Variable get_concept_id_fields : string → list string.
Variable has_domain_table_id : string → bool.

(** X9. Construction followed by setup against a warehouse that
    answers: the tables assigned to the rule are exactly the tables
    given to the constructor that declare a concept-id column, have an
    identifier column and are listed in the dataset; nothing is
    logged. *)
Theorem setup_of_a_constructed_rule (db : database) (job : string)
    (sandbox_table_for : string → string)
    (p d sd : string)
    (issue_numbers : list string) (description : string)
    (affected_datasets tables : list string) (s : setup_state) :
  ∃ resolved,
    setup_rule (warehouse_client db job)
      (AbstractConceptSuppression__init__ get_concept_id_fields
         has_domain_table_id sandbox_table_for p d
         sd issue_numbers description affected_datasets
         tables) s
    = (Return resolved, s)
    ∧ ∀ v, In v resolved
           ↔ ∃ t, v = VStr t
                  ∧ In t tables
                  ∧ get_concept_id_fields t ≠ []
                  ∧ has_domain_table_id t = true
                  ∧ In (VStr t)
                      (map (λ row, col row "table_id")
                         (db p d "__TABLES__")).
Proof.
  eexists. split.
  - rewrite setup_rule_run, warehouse_resolve. cbn [map].
    by rewrite setup_state_eta.
  - intros v. cbn [affected_tables project_id dataset_id
      AbstractConceptSuppression__init__ BaseCleaningRule__init__].
    rewrite in_map_iff. split.
    + intros (r & <- & [Hr Hkeep]%filter_In).
      apply existsb_exists in Hkeep as (w & Hw & Hm).
      apply in_map_iff in Hw as (t & <- & Ht).
      apply bool_decide_eq_true, sql_eq_true in Hm as [Heq _].
      apply filter_In in Ht as [Ht Hsup].
      rewrite suppressible_spec, andb_true_iff, negb_true_iff,
        bool_decide_eq_false in Hsup.
      exists t. split; [done|]. split; [done|]. split; [tauto|].
      split; [tauto|]. apply in_map_iff. eauto.
    + intros (t & -> & Ht & Hf & Hid & (r & Hr & Hin)%in_map_iff).
      exists r. split; [done|]. apply filter_In. split; [done|].
      apply existsb_exists. exists (VStr t). split.
      * apply in_map_iff. exists t. split; [done|].
        apply filter_In. split; [done|].
        rewrite suppressible_spec, andb_true_iff, negb_true_iff,
          bool_decide_eq_false. done.
      * apply bool_decide_eq_true, sql_eq_true. by rewrite Hr.
Qed.

End Construction.

Section Lookup.

Variable create_suppression_lookup_table :
  BqLookupTableRule → list value → Client → outcome unit.

(** X10. The lookup-table variant calls
    [create_suppression_lookup_table] once when the tables have been
    resolved, and not at all when resolving them raised: the error of
    the base method is then the error of the whole setup. *)
Theorem lookup_table_is_created_only_after_resolving (client : Client)
    (self : BqLookupTableRule) (s : setup_state) :
  (∀ tables records,
     get_tables_in_dataset client (project_id (bq_base self))
       (dataset_id (bq_base self)) (affected_tables (bq_base self))
     = (Return tables, records) →
     ∃ s',
       bq_setup_rule create_suppression_lookup_table client self s
       = (match create_suppression_lookup_table self tables client with
          | Return _ => Return tables
          | Raise e => Raise e
          end, s')
       ∧ lookup_tables_created s' = S (lookup_tables_created s))
  ∧ ∀ e records,
      get_tables_in_dataset client (project_id (bq_base self))
        (dataset_id (bq_base self)) (affected_tables (bq_base self))
      = (Raise e, records) →
      ∃ s',
        bq_setup_rule create_suppression_lookup_table client self s
        = (Raise e, s')
        ∧ lookup_tables_created s' = lookup_tables_created s.
Proof.
  split.
  - intros tables records Hget. unfold bq_setup_rule.
    unfold mbind at 1, M_bind at 1, bind at 1.
    rewrite setup_rule_run, Hget.
    unfold call_create_suppression_lookup_table, modify, lift_outcome,
      mbind, mret, M_bind, M_ret, bind, ret. cbn.
    destruct (create_suppression_lookup_table self tables client);
      by eexists.
  - intros e records Hget. unfold bq_setup_rule.
    unfold mbind at 1, M_bind at 1, bind at 1.
    rewrite setup_rule_run, Hget. by eexists.
Qed.

End Lookup.

(** *** The theorems at the sample data *)

Lemma setup_rule_loses_engine_errors_witness :
  setup_rule Examples.bad_request_client Examples.rule SetupExamples.fresh
  = (Raise (Exn UnboundLocalError [ArgStr "result"]), SetupExamples.fresh).
Proof.
  apply (setup_rule_loses_engine_errors Examples.bad_request_client
           Examples.rule SetupExamples.fresh
           {| result := Raise (Exn GoogleCloudError [ArgStr "400 Bad Request"]);
              job_errors := None |}
           (Exn GoogleCloudError [ArgStr "400 Bad Request"]));
    reflexivity.
Defined.

Lemma setup_rule_logs_submission_errors_witness :
  setup_rule SetupExamples.refusing_client Examples.rule SetupExamples.fresh
  = (Raise (Exn GoogleCloudError [ArgStr "403 Forbidden"]),
     {| setup_logged := [ERROR (Exn GoogleCloudError [ArgStr "403 Forbidden"])];
        lookup_tables_created := 0 |}).
Proof.
  apply (setup_rule_logs_submission_errors SetupExamples.refusing_client
           Examples.rule SetupExamples.fresh
           (Exn GoogleCloudError [ArgStr "403 Forbidden"])).
  reflexivity.
Defined.

Lemma lookup_table_is_created_only_after_resolving_witness :
  (∃ s',
     bq_setup_rule SetupExamples.creates
       (warehouse_client Examples.warehouse "job_2") Examples.lookup_rule
       SetupExamples.fresh
     = (Return [VStr "condition_occurrence"], s')
     ∧ lookup_tables_created s' = 1%nat)
  ∧ ∃ s',
      bq_setup_rule SetupExamples.creates Examples.timeout_client
        Examples.lookup_rule SetupExamples.fresh
      = (Raise (Exn UnboundLocalError [ArgStr "result"]), s')
      ∧ lookup_tables_created s' = 0%nat.
Proof.
  split.
  - apply (proj1 (lookup_table_is_created_only_after_resolving
                    SetupExamples.creates
                    (warehouse_client Examples.warehouse "job_2")
                    Examples.lookup_rule SetupExamples.fresh)
             [VStr "condition_occurrence"] []).
    reflexivity.
  - apply (proj2 (lookup_table_is_created_only_after_resolving
                    SetupExamples.creates Examples.timeout_client
                    Examples.lookup_rule SetupExamples.fresh)
             (Exn UnboundLocalError [ArgStr "result"]) []).
    reflexivity.
Defined.

End SetupFacts.

(** ** Sandbox and rewrite, one after the other *)

Module PlanFacts.
Import Py Sql ConceptSuppression SqlFacts ConceptSuppressionFacts.
Import ConceptSuppressionClaims.

Lemma filter_all {A} (f : A → bool) (l : list A) :
  (∀ x, In x l → f x = true) → List.filter f l = l.
Proof.
  induction l as [|x l IH]; intros Hall; [done|]. cbn [List.filter].
  rewrite (Hall x) by by left. f_equal. apply IH. intros y Hy.
  apply Hall. by right.
Qed.

Lemma NoDup_map_eq {A B} (g : A → B) (l : list A) (x y : A) :
  List.NoDup (map g l) → In x l → In y l → g x = g y → x = y.
Proof.
  induction l as [|z l IH]; [done|]. cbn [map].
  intros [Hz Hnd]%NoDup_cons_iff [->|Hx] [->|Hy] Heq; try done.
  - destruct Hz. rewrite Heq. by apply in_map.
  - destruct Hz. rewrite <- Heq. by apply in_map.
  - by apply IH.
Qed.

(** The anti-join on [key], for a sandbox that holds the rows of the
    table that satisfy [refs]. *)
Section AntiJoin.

Variable table sandbox : list row.
Variable key : string.
Variable refs : row → bool.
Hypothesis sandbox_rows : ∀ r, In r sandbox ↔ In r table ∧ refs r = true.

Local Abbreviation keep := (λ r : row,
  negb (existsb
          (λ s, bool_decide (sql_eq (col r key) (col s key) = Some true))
          sandbox)).

Lemma kept_row_is_clean (r : row) :
  In r (List.filter keep table) → col r key ≠ VNull → refs r = false.
Proof.
  intros [Hr Hk]%filter_In Hn. destruct (refs r) eqn:Href; [|done].
  apply negb_true_iff, not_true_iff_false in Hk. destruct Hk.
  apply existsb_exists. exists r. split; [by apply sandbox_rows|].
  by apply bool_decide_eq_true, sql_eq_true.
Qed.

Lemma removed_row_has_cause (r : row) :
  In r table → ¬ In r (List.filter keep table) →
  ∃ s, In s table ∧ refs s = true
       ∧ col s key = col r key ∧ col r key ≠ VNull.
Proof.
  intros Hr Hnot. destruct (keep r) eqn:Hk.
  - destruct Hnot. by apply filter_In.
  - apply negb_false_iff, existsb_exists in Hk as (s & Hs & Hm).
    apply bool_decide_eq_true, sql_eq_true in Hm as [Heq Hn].
    apply sandbox_rows in Hs as [Hs Href]. eauto.
Qed.

Lemma unique_keys_exact :
  List.NoDup (map (λ r, col r key) table) →
  (∀ r, In r table → col r key ≠ VNull) →
  List.filter keep table = List.filter (λ r, negb (refs r)) table.
Proof.
  intros Hnd Hnn. apply filter_ext_in. intros r Hr. f_equal.
  apply eq_true_iff_eq. rewrite existsb_exists. split.
  - intros (s & Hs & Hm).
    apply bool_decide_eq_true, sql_eq_true in Hm as [Heq _].
    apply sandbox_rows in Hs as [Hs Href].
    by rewrite (NoDup_map_eq (λ r, col r key) table r s Hnd Hr Hs Heq).
  - intros Href. exists r. split; [by apply sandbox_rows|].
    apply bool_decide_eq_true, sql_eq_true. split; [done|by apply Hnn].
Qed.

Lemma clean_table_kept :
  (∀ r, In r table → refs r = false) → List.filter keep table = table.
Proof.
  intros Hclean. apply filter_all. intros r Hr.
  apply negb_true_iff, not_true_iff_false.
  intros (s & Hs & _)%existsb_exists.
  apply sandbox_rows in Hs as [Hs Href]. rewrite Hclean in Href; done.
Qed.

End AntiJoin.

Section AnyRule.

Context {R : Type} `{ConceptSuppressionRule R}.

(** X11. A row whose identifier is NULL is never removed: whatever the
    sandbox table holds, the suppression query returns it. *)
Theorem row_with_null_identifier_is_kept (self : R) (t : string)
    (db : database) (r : row) :
  In r (db (project_id (base self)) (dataset_id (base self)) t) →
  col r (t ++ "_id") = VNull →
  In r (selected db (QUERY (get_suppression_query self t))).
Proof.
  intros Hr Hnull. unfold get_suppression_query. cbn [QUERY selected].
  rewrite suppression_select. apply filter_In. split; [done|].
  apply negb_true_iff, not_true_iff_false.
  intros (s & _ & Hm)%existsb_exists.
  apply bool_decide_eq_true, sql_eq_true in Hm as [_ Hn]. done.
Qed.

(** X12. With an empty sandbox table the suppression query returns the
    rows of the original table, each as often as the table holds it. *)
Theorem empty_sandbox_leaves_table_unchanged (self : R) (t : string)
    (db : database) :
  db (project_id (base self)) (sandbox_dataset_id (base self))
     (sandbox_table_for (base self) t) = [] →
  Permutation
    (selected db (QUERY (get_suppression_query self t)))
    (db (project_id (base self)) (dataset_id (base self)) t).
Proof.
  intros Hempty. unfold get_suppression_query. cbn [QUERY selected].
  rewrite suppression_select, Hempty. by rewrite filter_all.
Qed.

End AnyRule.

(** *** The in-memory variant *)

Section InMemory.

Variable get_concept_id_fields : string → list string.
Variable db db' : database.
Variable self : InMemoryRule.
Variable t : string.

Local Abbreviation sandbox_spec :=
  (im_get_sandbox_query get_concept_id_fields self t).
Local Abbreviation rewrite_spec :=
  (@get_suppression_query InMemoryRule (InMemory_rule get_concept_id_fields)
     self t).
Local Abbreviation original :=
  (db (project_id (im_base self)) (dataset_id (im_base self)) t).

(** Some concept-id column of [r] holds a listed identifier. *)
Local Abbreviation suppressed r :=
  (existsb
     (λ f, existsb (λ c, bool_decide (col r f = VInt c))
             (get_suppressed_concept_ids self))
     (get_concept_id_fields t)).

(** [db'] is [db] after the sandbox specification has been carried out
    in the project of the rule: its destination holds the rows of its
    query, and the table itself is as it was. *)
Hypothesis sandbox_written :
  ∀ sd st,
    DESTINATION_DATASET sandbox_spec = Some sd →
    DESTINATION_TABLE sandbox_spec = Some st →
    db' (project_id (im_base self)) sd st = selected db (QUERY sandbox_spec).
Hypothesis table_untouched :
  db' (project_id (im_base self)) (dataset_id (im_base self)) t = original.

Lemma im_suppressed_true (r : row) :
  suppressed r = true
  ↔ ∃ f c, In f (get_concept_id_fields t)
           ∧ In c (get_suppressed_concept_ids self)
           ∧ col r f = VInt c.
Proof.
  rewrite existsb_exists. split.
  - intros (f & Hf & (c & Hc & Heq)%existsb_exists).
    apply bool_decide_eq_true in Heq. eauto.
  - intros (f & c & Hf & Hc & Heq). exists f. split; [done|].
    apply existsb_exists. exists c. split; [done|].
    by apply bool_decide_eq_true.
Qed.

Lemma im_sandbox_rows (r : row) :
  In r (selected db (QUERY sandbox_spec))
  ↔ In r original ∧ suppressed r = true.
Proof. by rewrite im_sandbox_In, im_suppressed_true. Qed.

Lemma im_rewrite_rows :
  selected db' (QUERY rewrite_spec)
  = List.filter
      (λ r, negb (existsb
                    (λ s, bool_decide
                            (sql_eq (col r (t ++ "_id")) (col s (t ++ "_id"))
                             = Some true))
                    (selected db (QUERY sandbox_spec))))
      original.
Proof.
  unfold get_suppression_query. cbn [QUERY selected base InMemory_rule].
  rewrite suppression_select, table_untouched.
  by rewrite (sandbox_written _ _ eq_refl eq_refl).
Qed.

(** X13. After the sandbox query and then the suppression query of a
    table, no row that is kept and has an identifier holds a listed
    concept identifier in any of its concept-id columns. *)
Theorem im_rewrite_keeps_no_suppressed_row (r : row) :
  In r (selected db' (QUERY rewrite_spec)) →
  col r (t ++ "_id") ≠ VNull →
  ¬ ∃ f c, In f (get_concept_id_fields t)
           ∧ In c (get_suppressed_concept_ids self)
           ∧ col r f = VInt c.
Proof.
  rewrite im_rewrite_rows. intros Hkept Hn Hrefs%im_suppressed_true.
  rewrite (kept_row_is_clean original _ _ (λ r, suppressed r) im_sandbox_rows r
             Hkept Hn) in Hrefs. done.
Qed.

(** X14. A row that the two queries remove shares its identifier with
    a row of the table that holds a listed concept identifier: itself,
    or another row of the same identifier. *)
Theorem im_removed_row_shares_identifier_with_suppressed_row (r : row) :
  In r original →
  ¬ In r (selected db' (QUERY rewrite_spec)) →
  ∃ s f c, In s original
           ∧ col s (t ++ "_id") = col r (t ++ "_id")
           ∧ In f (get_concept_id_fields t)
           ∧ In c (get_suppressed_concept_ids self)
           ∧ col s f = VInt c.
Proof.
  rewrite im_rewrite_rows. intros Hr Hnot.
  destruct (removed_row_has_cause original _ _ (λ r, suppressed r) im_sandbox_rows r
              Hr Hnot) as (s & Hs & Href & Heq & _).
  apply im_suppressed_true in Href as (f & c & Hf & Hc & Hcol).
  exists s, f, c. done.
Qed.

(** X15. When the identifiers of the table are pairwise distinct and
    not NULL, the two queries leave exactly the rows that hold no
    listed concept identifier, each of them once. *)
Theorem im_rewrite_with_unique_identifiers :
  List.NoDup (map (λ r, col r (t ++ "_id")) original) →
  (∀ r, In r original → col r (t ++ "_id") ≠ VNull) →
  Permutation
    (selected db' (QUERY rewrite_spec))
    (List.filter (λ r, negb (suppressed r)) original).
Proof.
  intros Hnd Hnn. rewrite im_rewrite_rows.
  by rewrite (unique_keys_exact original _ _ (λ r, suppressed r)
                im_sandbox_rows Hnd Hnn).
Qed.

(** X16. When no row of the table holds a listed concept identifier,
    the two queries leave the table as it is. *)
Theorem im_rewrite_of_clean_table :
  (∀ r f c, In r original → In f (get_concept_id_fields t) →
            In c (get_suppressed_concept_ids self) → col r f ≠ VInt c) →
  selected db' (QUERY rewrite_spec) = original.
Proof.
  intros Hclean. rewrite im_rewrite_rows.
  apply (clean_table_kept original _ _ (λ r, suppressed r) im_sandbox_rows).
  intros r Hr. apply not_true_iff_false.
  intros (f & c & Hf & Hc & Heq)%im_suppressed_true.
  by apply (Hclean r f c).
Qed.

End InMemory.

(** *** The lookup-table variant *)

Section LookupTable.

Variable get_concept_id_fields : string → list string.
Variable db db' : database.
Variable self : BqLookupTableRule.
Variable t : string.

Local Abbreviation sandbox_spec :=
  (bq_get_sandbox_query get_concept_id_fields self t).
Local Abbreviation rewrite_spec :=
  (@get_suppression_query BqLookupTableRule
     (BqLookupTable_rule get_concept_id_fields) self t).
Local Abbreviation original :=
  (db (project_id (bq_base self)) (dataset_id (bq_base self)) t).
Local Abbreviation lookup :=
  (db (project_id (bq_base self)) (sandbox_dataset_id (bq_base self))
      (concept_suppression_lookup_table self)).

(** Some concept-id column of [r] holds a value of the lookup table. *)
Local Abbreviation suppressed r :=
  (existsb
     (λ f, existsb
             (λ s, bool_decide
                     (sql_eq (col r f) (col s "concept_id") = Some true))
             lookup)
     (get_concept_id_fields t)).

Hypothesis sandbox_written :
  ∀ sd st,
    DESTINATION_DATASET sandbox_spec = Some sd →
    DESTINATION_TABLE sandbox_spec = Some st →
    db' (project_id (bq_base self)) sd st = selected db (QUERY sandbox_spec).
Hypothesis table_untouched :
  db' (project_id (bq_base self)) (dataset_id (bq_base self)) t = original.

Lemma bq_suppressed_true (r : row) :
  suppressed r = true
  ↔ ∃ f s, In f (get_concept_id_fields t) ∧ In s lookup
           ∧ col r f = col s "concept_id" ∧ col r f ≠ VNull.
Proof.
  rewrite existsb_exists. split.
  - intros (f & Hf & (s & Hs & Heq)%existsb_exists).
    apply bool_decide_eq_true, sql_eq_true in Heq as [Heq Hn]. eauto 8.
  - intros (f & s & Hf & Hs & Heq & Hn). exists f. split; [done|].
    apply existsb_exists. exists s. split; [done|].
    by apply bool_decide_eq_true, sql_eq_true.
Qed.

Lemma bq_sandbox_rows (r : row) :
  In r (selected db (QUERY sandbox_spec))
  ↔ In r original ∧ suppressed r = true.
Proof. by rewrite bq_sandbox_In, bq_suppressed_true. Qed.

Lemma bq_rewrite_rows :
  selected db' (QUERY rewrite_spec)
  = List.filter
      (λ r, negb (existsb
                    (λ s, bool_decide
                            (sql_eq (col r (t ++ "_id")) (col s (t ++ "_id"))
                             = Some true))
                    (selected db (QUERY sandbox_spec))))
      original.
Proof.
  unfold get_suppression_query. cbn [QUERY selected base BqLookupTable_rule].
  rewrite suppression_select, table_untouched.
  by rewrite (sandbox_written _ _ eq_refl eq_refl).
Qed.

(** X17. After the sandbox query and then the suppression query of a
    table, no row that is kept and has an identifier holds, in any of
    its concept-id columns, a concept identifier of the lookup
    table. *)
Theorem bq_rewrite_keeps_no_suppressed_row (r : row) :
  In r (selected db' (QUERY rewrite_spec)) →
  col r (t ++ "_id") ≠ VNull →
  ¬ ∃ f s, In f (get_concept_id_fields t) ∧ In s lookup
           ∧ col r f = col s "concept_id" ∧ col r f ≠ VNull.
Proof.
  rewrite bq_rewrite_rows. intros Hkept Hn Hrefs%bq_suppressed_true.
  rewrite (kept_row_is_clean original _ _ (λ r, suppressed r) bq_sandbox_rows r
             Hkept Hn) in Hrefs. done.
Qed.

(** X18. When the identifiers of the table are pairwise distinct and
    not NULL, the two queries leave exactly the rows of which no
    concept-id column holds a concept identifier of the lookup table,
    each of them once. *)
Theorem bq_rewrite_with_unique_identifiers :
  List.NoDup (map (λ r, col r (t ++ "_id")) original) →
  (∀ r, In r original → col r (t ++ "_id") ≠ VNull) →
  Permutation
    (selected db' (QUERY rewrite_spec))
    (List.filter (λ r, negb (suppressed r)) original).
Proof.
  intros Hnd Hnn. rewrite bq_rewrite_rows.
  by rewrite (unique_keys_exact original _ _ (λ r, suppressed r)
                bq_sandbox_rows Hnd Hnn).
Qed.

End LookupTable.

Section Once.

Variable get_concept_id_fields : string → list string.

(** X19. When no value other than NULL occurs twice in the
    [concept_id] column of the lookup table, the sandbox query of the
    lookup-table variant returns every row to be sandboxed once: the
    chained joins do not multiply rows. *)
Theorem bq_sandbox_once (db : database) (self : BqLookupTableRule)
    (t : string) :
  List.NoDup
    (List.filter (λ w, negb (is_null w))
       (map (λ s, col s "concept_id")
          (db (project_id (bq_base self)) (sandbox_dataset_id (bq_base self))
              (concept_suppression_lookup_table self)))) →
  Permutation
    (selected db (QUERY (bq_get_sandbox_query get_concept_id_fields self t)))
    (List.filter
       (λ r, existsb
               (λ f, existsb
                       (λ s, bool_decide
                               (sql_eq (col r f) (col s "concept_id")
                                = Some true))
                       (db (project_id (bq_base self))
                           (sandbox_dataset_id (bq_base self))
                           (concept_suppression_lookup_table self)))
               (get_concept_id_fields t))
       (db (project_id (bq_base self)) (dataset_id (bq_base self)) t)).
Proof.
  intros Hnd. unfold bq_get_sandbox_query,
    BQ_LOOKUP_TABLE_SANDBOX_QUERY_TEMPLATE. cbn [QUERY selected].
  by rewrite (sandbox_select_once db []
                (Table (project_id (bq_base self))
                   (sandbox_dataset_id (bq_base self))
                   (concept_suppression_lookup_table self))
                _ _ _ _ Hnd).
Qed.

(** X26. When the listed concept identifiers are pairwise distinct, the
    sandbox query of the in-memory variant returns every row to be
    sandboxed once. *)
Theorem im_sandbox_returns_each_row_once (db : database)
    (self : InMemoryRule) (t : string) :
  List.NoDup (get_suppressed_concept_ids self) →
  Permutation
    (selected db (QUERY (im_get_sandbox_query get_concept_id_fields self t)))
    (List.filter
       (λ r, existsb
               (λ f, existsb (λ c, bool_decide (col r f = VInt c))
                       (get_suppressed_concept_ids self))
               (get_concept_id_fields t))
       (db (project_id (im_base self)) (dataset_id (im_base self)) t)).
Proof. intros Hnd. by rewrite (im_sandbox_once _ db self t Hnd). Qed.

End Once.

(** *** The theorems at the sample data *)

Lemma sample_sandbox_written :
  ∀ sd st,
    DESTINATION_DATASET
      (im_get_sandbox_query Examples.concept_id_fields
         Examples.in_memory_rule "condition_occurrence") = Some sd →
    DESTINATION_TABLE
      (im_get_sandbox_query Examples.concept_id_fields
         Examples.in_memory_rule "condition_occurrence") = Some st →
    SetupExamples.sandboxed_warehouse "project" sd st
    = selected Examples.warehouse
        (QUERY (im_get_sandbox_query Examples.concept_id_fields
                  Examples.in_memory_rule "condition_occurrence")).
Proof. intros sd st [= <-] [= <-]. reflexivity. Qed.

Lemma sample_lookup_sandbox_written :
  ∀ sd st,
    DESTINATION_DATASET
      (bq_get_sandbox_query Examples.concept_id_fields
         Examples.lookup_rule "condition_occurrence") = Some sd →
    DESTINATION_TABLE
      (bq_get_sandbox_query Examples.concept_id_fields
         Examples.lookup_rule "condition_occurrence") = Some st →
    SetupExamples.sandboxed_warehouse "project" sd st
    = selected Examples.warehouse
        (QUERY (bq_get_sandbox_query Examples.concept_id_fields
                  Examples.lookup_rule "condition_occurrence")).
Proof. intros sd st [= <-] [= <-]. reflexivity. Qed.

Lemma sample_clean_sandbox_written :
  ∀ sd st,
    DESTINATION_DATASET
      (im_get_sandbox_query Examples.concept_id_fields
         Examples.in_memory_rule "condition_occurrence") = Some sd →
    DESTINATION_TABLE
      (im_get_sandbox_query Examples.concept_id_fields
         Examples.in_memory_rule "condition_occurrence") = Some st →
    SetupExamples.clean_warehouse "project" sd st
    = selected SetupExamples.clean_warehouse
        (QUERY (im_get_sandbox_query Examples.concept_id_fields
                  Examples.in_memory_rule "condition_occurrence")).
Proof. intros sd st [= <-] [= <-]. reflexivity. Qed.

Lemma sample_identifiers_distinct :
  List.NoDup
    (map (λ r, col r ("condition_occurrence" ++ "_id"))
       (Examples.warehouse "project" "dataset" "condition_occurrence")).
Proof.
  change (List.NoDup [VInt 1; VInt 2; VInt 3]).
  repeat constructor; simpl; intuition discriminate.
Qed.

Lemma sample_identifiers_not_null (r : row) :
  In r (Examples.warehouse "project" "dataset" "condition_occurrence") →
  col r ("condition_occurrence" ++ "_id") ≠ VNull.
Proof. intros [<-|[<-|[<-|[]]]]; discriminate. Qed.

Lemma row_with_null_identifier_is_kept_witness :
  In SetupExamples.row_without_id
    (selected SetupExamples.warehouse_with_null_id
       (QUERY (get_suppression_query Examples.in_memory_rule
                 "condition_occurrence"))).
Proof.
  apply (row_with_null_identifier_is_kept Examples.in_memory_rule
           "condition_occurrence" SetupExamples.warehouse_with_null_id
           SetupExamples.row_without_id).
  - right. by left.
  - reflexivity.
Defined.

Lemma empty_sandbox_leaves_table_unchanged_witness :
  Permutation
    (selected SetupExamples.clean_warehouse
       (QUERY (get_suppression_query Examples.in_memory_rule
                 "condition_occurrence")))
    [Examples.row_b].
Proof.
  apply (empty_sandbox_leaves_table_unchanged Examples.in_memory_rule
           "condition_occurrence" SetupExamples.clean_warehouse).
  reflexivity.
Defined.

Lemma im_rewrite_keeps_no_suppressed_row_witness :
  ¬ ∃ f c, In f (Examples.concept_id_fields "condition_occurrence")
           ∧ In c [99]
           ∧ col Examples.row_b f = VInt c.
Proof.
  apply (im_rewrite_keeps_no_suppressed_row Examples.concept_id_fields
           Examples.warehouse SetupExamples.sandboxed_warehouse
           Examples.in_memory_rule "condition_occurrence"
           sample_sandbox_written eq_refl Examples.row_b).
  - left. reflexivity.
  - discriminate.
Defined.

Lemma im_removed_row_shares_identifier_with_suppressed_row_witness :
  ∃ s f c,
    In s (Examples.warehouse "project" "dataset" "condition_occurrence")
    ∧ col s ("condition_occurrence" ++ "_id")
      = col Examples.row_a ("condition_occurrence" ++ "_id")
    ∧ In f (Examples.concept_id_fields "condition_occurrence")
    ∧ In c [99]
    ∧ col s f = VInt c.
Proof.
  apply (im_removed_row_shares_identifier_with_suppressed_row
           Examples.concept_id_fields Examples.warehouse
           SetupExamples.sandboxed_warehouse Examples.in_memory_rule
           "condition_occurrence" sample_sandbox_written eq_refl
           Examples.row_a).
  - by left.
  - intros [Hab|[]].
    apply (f_equal (λ r, col r "condition_occurrence_id")) in Hab.
    discriminate Hab.
Defined.

Lemma im_rewrite_with_unique_identifiers_witness :
  Permutation
    (selected SetupExamples.sandboxed_warehouse
       (QUERY (get_suppression_query Examples.in_memory_rule
                 "condition_occurrence")))
    [Examples.row_b].
Proof.
  apply (im_rewrite_with_unique_identifiers Examples.concept_id_fields
           Examples.warehouse SetupExamples.sandboxed_warehouse
           Examples.in_memory_rule "condition_occurrence"
           sample_sandbox_written eq_refl sample_identifiers_distinct
           sample_identifiers_not_null).
Defined.

Lemma im_rewrite_of_clean_table_witness :
  selected SetupExamples.clean_warehouse
    (QUERY (get_suppression_query Examples.in_memory_rule
              "condition_occurrence"))
  = SetupExamples.clean_warehouse "project" "dataset" "condition_occurrence".
Proof.
  apply (im_rewrite_of_clean_table Examples.concept_id_fields
           SetupExamples.clean_warehouse SetupExamples.clean_warehouse
           Examples.in_memory_rule "condition_occurrence"
           sample_clean_sandbox_written eq_refl).
  intros r f c [<-|[]] [<-|[<-|[]]] [<-|[]]; discriminate.
Defined.

Lemma bq_rewrite_keeps_no_suppressed_row_witness :
  ¬ ∃ f s, In f (Examples.concept_id_fields "condition_occurrence")
           ∧ In s (Examples.warehouse "project" "sandbox" "suppressed")
           ∧ col Examples.row_b f = col s "concept_id"
           ∧ col Examples.row_b f ≠ VNull.
Proof.
  apply (bq_rewrite_keeps_no_suppressed_row Examples.concept_id_fields
           Examples.warehouse SetupExamples.sandboxed_warehouse
           Examples.lookup_rule "condition_occurrence"
           sample_lookup_sandbox_written eq_refl Examples.row_b).
  - left. reflexivity.
  - discriminate.
Defined.

Lemma bq_rewrite_with_unique_identifiers_witness :
  Permutation
    (selected SetupExamples.sandboxed_warehouse
       (QUERY (get_suppression_query Examples.lookup_rule
                 "condition_occurrence")))
    [Examples.row_b].
Proof.
  apply (bq_rewrite_with_unique_identifiers Examples.concept_id_fields
           Examples.warehouse SetupExamples.sandboxed_warehouse
           Examples.lookup_rule "condition_occurrence"
           sample_lookup_sandbox_written eq_refl sample_identifiers_distinct
           sample_identifiers_not_null).
Defined.

Lemma bq_sandbox_once_witness :
  Permutation
    (selected Examples.warehouse
       (QUERY (bq_get_sandbox_query Examples.concept_id_fields
                 Examples.lookup_rule "condition_occurrence")))
    [Examples.row_a; Examples.row_c].
Proof.
  apply (bq_sandbox_once Examples.concept_id_fields Examples.warehouse
           Examples.lookup_rule "condition_occurrence").
  change (List.NoDup [VInt 99]). repeat constructor. by intros [].
Defined.

Lemma im_sandbox_returns_each_row_once_witness :
  Permutation
    (selected Examples.warehouse
       (QUERY (im_get_sandbox_query Examples.concept_id_fields
                 Examples.in_memory_rule "condition_occurrence")))
    [Examples.row_a; Examples.row_c].
Proof.
  apply (im_sandbox_returns_each_row_once Examples.concept_id_fields
           Examples.warehouse Examples.in_memory_rule
           "condition_occurrence").
  repeat constructor. by intros [].
Defined.

End PlanFacts.

(** ** More about slack_alerts.py *)

Module SlackAlertsFacts.
Import Py SlackAlerts SlackAlertsClaims.

(** Read the three effects off a computed outcome. *)
Ltac account :=
  intros [= <- <-]; cbn;
  split; [reflexivity|split];
  [first [by left | right; eexists; reflexivity]
  |first [by left | right; eexists; split; reflexivity]].

(** The loop returns at the first channel of the configured name when
    the channels before it have other names. *)
Lemma for_channel_finds (channel_name : string)
    (before after : list channel) (c : channel) (w : world) :
  (∀ c', In c' before →
         ∃ name, c' !! "name" = Some name ∧ name ≠ channel_name) →
  c !! "name" = Some channel_name →
  for_channel channel_name (before ++ c :: after)%list w = (Return (Some true), w).
Proof.
  intros Hbefore Hc. induction before as [|c' before IH];
    cbn [app for_channel]; step.
  - rewrite Hc. by rewrite bool_decide_eq_true_2.
  - destruct (Hbefore c' (or_introl eq_refl)) as (name & -> & Hne).
    rewrite bool_decide_eq_false_2 by done. apply IH.
    intros c'' Hc''. apply Hbefore. by right.
Qed.

(** The loop runs to its end when every channel has another name. *)
Lemma for_channel_misses (channel_name : string) (channels : list channel)
    (w : world) :
  (∀ c, In c channels →
        ∃ name, c !! "name" = Some name ∧ name ≠ channel_name) →
  for_channel channel_name channels w = (Return None, w).
Proof.
  intros Hall. induction channels as [|c channels IH];
    cbn [for_channel]; step; [done|].
  destruct (Hall c (or_introl eq_refl)) as (name & -> & Hne).
  rewrite bool_decide_eq_false_2 by done. apply IH.
  intros c' Hc'. apply Hall. by right.
Qed.

(** The loop raises KeyError at a channel without name that comes
    before any channel of the configured name. *)
Lemma for_channel_nameless (channel_name : string)
    (before after : list channel) (c : channel) (w : world) :
  (∀ c', In c' before →
         ∃ name, c' !! "name" = Some name ∧ name ≠ channel_name) →
  c !! "name" = None →
  for_channel channel_name (before ++ c :: after)%list w
  = (Raise (Exn KeyError [ArgStr "name"]), w).
Proof.
  intros Hbefore Hc. induction before as [|c' before IH];
    cbn [app for_channel]; step.
  - by rewrite Hc.
  - destruct (Hbefore c' (or_introl eq_refl)) as (name & -> & Hne).
    rewrite bool_decide_eq_false_2 by done. apply IH.
    intros c'' Hc''. apply Hbefore. by right.
Qed.

Section Service.

Variable conversations_list_answer : string → Z → outcome SlackResponse.
Variable chat_postMessage_answer :
  string → string → string → outcome SlackResponse.

(** What [is_channel_available] does once both variables are set and
    the listing has been answered with status 200 and a list of
    channels. *)
Lemma listed (w : world) (tok ch : string) (response : SlackResponse)
    (channels : list channel) :
  environ w !! SLACK_TOKEN = Some tok →
  environ w !! SLACK_CHANNEL = Some ch →
  conversations_list_answer tok sys_maxsize = Return response →
  status_code response = 200 →
  data response !! "channels" = Some channels →
  is_channel_available conversations_list_answer w
  = match for_channel ch channels
            {| environ := environ w;
               logged := logged w;
               sent := sent w ++ [conversations_list_request tok sys_maxsize] |}
    with
    | (Return (Some b), w') => (Return b, w')
    | (Return None, w') => (Return false, w')
    | (Raise e, w') => (Raise e, w')
    end.
Proof.
  intros Htok Hch Hans Hstatus Hdata. unfold is_channel_available. step.
  rewrite Htok, Hch. cbn [token]. rewrite Hans.
  rewrite bool_decide_eq_true_2 by done. rewrite Hdata.
  destruct (for_channel ch channels _) as [[[b|]|e] w'] eqn:Hfor; try done.
  apply for_channel_raises in Hfor.
  assert (caught_by [SlackConfigurationError; SlackApiError] e = false)
    as -> by (unfold caught_by, issubclass; by rewrite Hfor).
  done.
Qed.

(** X20. With both variables set, a listing of status 200 in which a
    channel has the configured name, and the channels before it have
    other names, makes [is_channel_available] return True; one request
    has been sent and nothing logged. *)
Theorem is_channel_available_finds_the_channel (w : world)
    (tok ch : string) (response : SlackResponse)
    (before after : list channel) (c : channel) :
  environ w !! SLACK_TOKEN = Some tok →
  environ w !! SLACK_CHANNEL = Some ch →
  conversations_list_answer tok sys_maxsize = Return response →
  status_code response = 200 →
  data response !! "channels" = Some (before ++ c :: after)%list →
  (∀ c', In c' before → ∃ name, c' !! "name" = Some name ∧ name ≠ ch) →
  c !! "name" = Some ch →
  is_channel_available conversations_list_answer w
  = (Return true,
     {| environ := environ w;
        logged := logged w;
        sent := sent w ++ [conversations_list_request tok sys_maxsize] |}).
Proof.
  intros Htok Hch Hans Hstatus Hdata Hbefore Hc.
  rewrite (listed w tok ch response _ Htok Hch Hans Hstatus Hdata).
  by rewrite for_channel_finds.
Qed.

(** X21. With both variables set, [is_channel_available] returns False
    without logging anything when the listing has another status than
    200, and when it has status 200 and every channel has another
    name. *)
Theorem is_channel_available_is_silent_without_match (w : world)
    (tok ch : string) (response : SlackResponse) :
  environ w !! SLACK_TOKEN = Some tok →
  environ w !! SLACK_CHANNEL = Some ch →
  conversations_list_answer tok sys_maxsize = Return response →
  status_code response ≠ 200
  ∨ (status_code response = 200
     ∧ ∃ channels,
         data response !! "channels" = Some channels
         ∧ ∀ c, In c channels →
                ∃ name, c !! "name" = Some name ∧ name ≠ ch) →
  is_channel_available conversations_list_answer w
  = (Return false,
     {| environ := environ w;
        logged := logged w;
        sent := sent w ++ [conversations_list_request tok sys_maxsize] |}).
Proof.
  intros Htok Hch Hans [Hstatus|(Hstatus & channels & Hdata & Hall)].
  - unfold is_channel_available. step.
    rewrite Htok, Hch. cbn [token]. rewrite Hans.
    by rewrite bool_decide_eq_false_2.
  - rewrite (listed w tok ch response _ Htok Hch Hans Hstatus Hdata).
    by rewrite for_channel_misses.
Qed.

(** X22. A listing of status 200 that is not shaped as expected makes
    [is_channel_available] raise KeyError, which its except clause does
    not name: when [data] has no key [channels], and when a channel
    without [name] comes before any channel of the configured name. *)
Theorem is_channel_available_raises_KeyError_on_malformed_listing
    (w : world) (tok ch : string) (response : SlackResponse) :
  environ w !! SLACK_TOKEN = Some tok →
  environ w !! SLACK_CHANNEL = Some ch →
  conversations_list_answer tok sys_maxsize = Return response →
  status_code response = 200 →
  (data response !! "channels" = None →
   is_channel_available conversations_list_answer w
   = (Raise (Exn KeyError [ArgStr "channels"]),
      {| environ := environ w;
         logged := logged w;
         sent := sent w ++ [conversations_list_request tok sys_maxsize] |}))
  ∧ ∀ before c after,
      data response !! "channels" = Some (before ++ c :: after)%list →
      (∀ c', In c' before → ∃ name, c' !! "name" = Some name ∧ name ≠ ch) →
      c !! "name" = None →
      is_channel_available conversations_list_answer w
      = (Raise (Exn KeyError [ArgStr "name"]),
         {| environ := environ w;
            logged := logged w;
            sent := sent w ++ [conversations_list_request tok sys_maxsize] |}).
Proof.
  intros Htok Hch Hans Hstatus. split.
  - intros Hdata. unfold is_channel_available. step.
    rewrite Htok, Hch. cbn [token]. rewrite Hans.
    rewrite bool_decide_eq_true_2 by done. by rewrite Hdata.
  - intros before c after Hdata Hbefore Hc.
    rewrite (listed w tok ch response _ Htok Hch Hans Hstatus Hdata).
    by rewrite for_channel_nameless.
Qed.

(** X23. An exception of the listing that is neither a
    SlackConfigurationError nor a SlackApiError leaves
    [is_channel_available] as it is and is not logged. *)
Theorem is_channel_available_passes_on_other_errors (w : world)
    (tok ch : string) (e : exn) :
  environ w !! SLACK_TOKEN = Some tok →
  environ w !! SLACK_CHANNEL = Some ch →
  conversations_list_answer tok sys_maxsize = Raise e →
  caught_by [SlackConfigurationError; SlackApiError] e = false →
  is_channel_available conversations_list_answer w
  = (Raise e,
     {| environ := environ w;
        logged := logged w;
        sent := sent w ++ [conversations_list_request tok sys_maxsize] |}).
Proof.
  intros Htok Hch Hans Hc. unfold is_channel_available. step.
  rewrite Htok, Hch. cbn [token]. by rewrite Hans, Hc.
Qed.

(** X24. The token is read before the channel name: without token
    [post_message] reports the token, whether or not the channel name
    is set, and it reports the channel name only when the token is
    there. *)
Theorem post_message_reports_the_token_first (text : string) (w : world) :
  (environ w !! SLACK_TOKEN = None →
   post_message chat_postMessage_answer text w
   = (Raise (SlackConfigurationError_ UNSET_SLACK_TOKEN_MSG), w))
  ∧ ∀ tok,
      environ w !! SLACK_TOKEN = Some tok →
      environ w !! SLACK_CHANNEL = None →
      post_message chat_postMessage_answer text w
      = (Raise (SlackConfigurationError_ UNSET_SLACK_CHANNEL_MSG), w).
Proof.
  split.
  - intros Htok. unfold post_message. step. by rewrite Htok.
  - intros tok Htok Hch. unfold post_message. step. by rewrite Htok, Hch.
Qed.

(** X25. Whatever happens, [is_channel_available] leaves the
    environment as it is, sends at most one request, the listing with
    [sys.maxsize] as limit, and logs at most one error, in which case it
    returns False. *)
Theorem is_channel_available_effects (w w' : world) (o : outcome bool) :
  is_channel_available conversations_list_answer w = (o, w') →
  environ w' = environ w
  ∧ (sent w' = sent w
     ∨ ∃ tok,
         sent w' = (sent w ++ [conversations_list_request tok sys_maxsize])%list)
  ∧ (logged w' = logged w
     ∨ ∃ e, logged w' = (logged w ++ [e])%list ∧ o = Return false).
Proof.
  unfold is_channel_available. step.
  destruct (environ w !! SLACK_TOKEN) as [tok|];
    [|account].
  destruct (environ w !! SLACK_CHANNEL) as [ch|];
    [|account].
  cbn [token].
  destruct (conversations_list_answer tok sys_maxsize) as [response|e0].
  - case_bool_decide; [|account].
    destruct (data response !! "channels") as [channels|];
      [|account].
    destruct (for_channel ch channels _) as [[[b|]|e1] w1] eqn:Hfor;
      pose proof (for_channel_state _ _ _ _ _ Hfor) as ->.
    + account.
    + account.
    + apply for_channel_raises in Hfor.
      assert (caught_by [SlackConfigurationError; SlackApiError] e1 = false)
        as -> by (unfold caught_by, issubclass; by rewrite Hfor).
      account.
  - destruct (caught_by _ e0); account.
Qed.

End Service.

(** *** The theorems at the sample data *)

Lemma is_channel_available_finds_the_channel_witness :
  is_channel_available Examples.slack_up Examples.configured
  = (Return true,
     {| environ := environ Examples.configured;
        logged := [];
        sent := [conversations_list_request "xoxb" sys_maxsize] |}).
Proof.
  apply (is_channel_available_finds_the_channel Examples.slack_up
           Examples.configured "xoxb" "alerts" Examples.listing
           [ {[ "name" := "general" ]} ] [] {[ "name" := "alerts" ]}
           eq_refl eq_refl eq_refl eq_refl eq_refl).
  - intros c' [<-|[]]. exists "general". split; [reflexivity|discriminate].
  - reflexivity.
Defined.

Lemma is_channel_available_is_silent_without_match_witness :
  is_channel_available SetupExamples.slack_unavailable Examples.configured
  = (Return false,
     {| environ := environ Examples.configured;
        logged := [];
        sent := [conversations_list_request "xoxb" sys_maxsize] |}).
Proof.
  apply (is_channel_available_is_silent_without_match
           SetupExamples.slack_unavailable Examples.configured "xoxb"
           "alerts" {| status_code := 503; data := ∅ |}
           eq_refl eq_refl eq_refl).
  left. discriminate.
Defined.

Lemma is_channel_available_raises_KeyError_on_malformed_listing_witness :
  is_channel_available SetupExamples.slack_malformed Examples.configured
  = (Raise (Exn KeyError [ArgStr "channels"]),
     {| environ := environ Examples.configured;
        logged := [];
        sent := [conversations_list_request "xoxb" sys_maxsize] |}).
Proof.
  apply (proj1 (is_channel_available_raises_KeyError_on_malformed_listing
                  SetupExamples.slack_malformed Examples.configured "xoxb"
                  "alerts" SetupExamples.listing_without_channels
                  eq_refl eq_refl eq_refl eq_refl)).
  reflexivity.
Defined.

Lemma is_channel_available_passes_on_other_errors_witness :
  is_channel_available SetupExamples.slack_broken Examples.configured
  = (Raise (Exn TimeoutError [ArgStr "connection timed out"]),
     {| environ := environ Examples.configured;
        logged := [];
        sent := [conversations_list_request "xoxb" sys_maxsize] |}).
Proof.
  apply (is_channel_available_passes_on_other_errors
           SetupExamples.slack_broken Examples.configured "xoxb" "alerts"
           (Exn TimeoutError [ArgStr "connection timed out"])
           eq_refl eq_refl eq_refl eq_refl).
Defined.

Lemma post_message_reports_the_token_first_witness :
  post_message Examples.delivered "hello" Examples.no_environment
  = (Raise (SlackConfigurationError_ UNSET_SLACK_TOKEN_MSG),
     Examples.no_environment)
  ∧ post_message Examples.delivered "hello" Examples.token_only
    = (Raise (SlackConfigurationError_ UNSET_SLACK_CHANNEL_MSG),
       Examples.token_only).
Proof.
  split.
  - apply (proj1 (post_message_reports_the_token_first Examples.delivered
                    "hello" Examples.no_environment)).
    reflexivity.
  - apply (proj2 (post_message_reports_the_token_first Examples.delivered
                    "hello" Examples.token_only) "xoxb");
      reflexivity.
Defined.

Lemma is_channel_available_effects_witness :
  environ Examples.configured = environ Examples.configured
  ∧ (sent Examples.configured ++ [conversations_list_request "xoxb" sys_maxsize]
     = sent Examples.configured
     ∨ ∃ tok,
         sent Examples.configured
         ++ [conversations_list_request "xoxb" sys_maxsize]
         = sent Examples.configured
           ++ [conversations_list_request tok sys_maxsize])%list
  ∧ (logged Examples.configured
     ++ [Exn SlackApiError [ArgStr "invalid_auth"]]
     = logged Examples.configured
     ∨ ∃ e,
         logged Examples.configured
         ++ [Exn SlackApiError [ArgStr "invalid_auth"]]
         = logged Examples.configured ++ [e]
         ∧ @Return bool false = Return false)%list.
Proof.
  apply (is_channel_available_effects Examples.slack_down
           Examples.configured
           {| environ := environ Examples.configured;
              logged := logged Examples.configured
                        ++ [Exn SlackApiError [ArgStr "invalid_auth"]];
              sent := sent Examples.configured
                      ++ [conversations_list_request "xoxb" sys_maxsize] |}
           (Return false)).
  reflexivity.
Defined.

End SlackAlertsFacts.
